(** * Receipt processor: a shallow embedding of [src/lambda/receipt_processor.py]

    The Lambda handler reads a JSON event, calls Textract's AnalyzeExpense,
    flattens the first expense document into a summary dict and a list of
    line items, stores a record in DynamoDB and mails a report through SES.

    The embedding keeps Python's dynamic typing: every value is a [pyval],
    every operation that Python may reject returns a [result], and the three
    service calls are answered by a [world] and recorded in a trace. *)

From Stdlib Require Import String Ascii ZArith List Bool Lia.
From stdpp Require Import base decidable list strings pretty.
Import ListNotations.

Set Warnings "-register-all".

Local Open Scope string_scope.
Local Open Scope list_scope.

(** ** Python values *)

(** Keys of a dict.  JSON objects only have string keys; a dict built by the
    program can also be keyed by a number ([True] and [1] are the same key,
    as are [False] and [0]). *)
Inductive pykey : Type :=
| KNone
| KInt (z : Z)
| KStr (s : string).

(** The JSON-shaped values the handler meets.  Numbers are integers: the
    program never inspects a float. *)
Inductive pyval : Type :=
| PNone
| PBool (b : bool)
| PInt (z : Z)
| PStr (s : string)
| PList (xs : list pyval)
| PDict (kvs : list (pykey * pyval)).

(** A dict keeps insertion order, so it is an association list. *)
Abbreviation dict := (list (pykey * pyval)).

#[global] Instance pykey_eq_dec : EqDecision pykey.
Proof. solve_decision. Defined.

(** ** Exceptions *)

Inductive exn : Type :=
| TypeError
| AttributeError
| KeyError
| IndexError
| ValueError (msg : string)
| ClientError (code : string)      (* botocore.exceptions.ClientError and its subclasses *)
| OtherError (name : string).      (* any exception class outside the above *)

(** [except ClientError] *)
Definition is_ClientError (e : exn) : bool :=
  match e with
  | ClientError _ => true
  | _ => false
  end.

Inductive result (A : Type) : Type :=
| Ok (a : A)
| Raise (e : exn).
Arguments Ok {A} a.
Arguments Raise {A} e.

Definition rbind {A B} (m : result A) (k : A -> result B) : result B :=
  match m with
  | Ok a => k a
  | Raise e => Raise e
  end.

Declare Scope py_scope.
Delimit Scope py_scope with py.
Notation "x <- m ;; k" := (rbind m (fun x => k))
  (at level 100, m at next level, right associativity) : py_scope.
Local Open Scope py_scope.

(** ** Built-in operations *)

Module Py.

(** [bool(v)] *)
Definition truthy (v : pyval) : bool :=
  match v with
  | PNone => false
  | PBool b => b
  | PInt z => negb (z =? 0)%Z
  | PStr s => negb (String.eqb s "")
  | PList xs => match xs with [] => false | _ => true end
  | PDict kvs => match kvs with [] => false | _ => true end
  end.

(** [a or b], with [b] already evaluated *)
Definition or_ (a b : pyval) : pyval := if truthy a then a else b.

(** [hash(v)] as a dict key; lists and dicts are unhashable. *)
Definition hash (v : pyval) : result pykey :=
  match v with
  | PNone => Ok KNone
  | PBool b => Ok (KInt (if b then 1 else 0))
  | PInt z => Ok (KInt z)
  | PStr s => Ok (KStr s)
  | PList _ | PDict _ => Raise TypeError
  end.

Definition key_value (k : pykey) : pyval :=
  match k with
  | KNone => PNone
  | KInt z => PInt z
  | KStr s => PStr s
  end.

(** First binding of [k] in [d]. *)
Fixpoint lookup (k : pykey) (d : dict) : option pyval :=
  match d with
  | [] => None
  | (k', v) :: d' => if decide (k = k') then Some v else lookup k d'
  end.

(** [d[k] = v]: overwrite in place, or append a new binding. *)
Fixpoint set (k : pykey) (v : pyval) (d : dict) : dict :=
  match d with
  | [] => [(k, v)]
  | (k', v') :: d' => if decide (k = k') then (k', v) :: d' else (k', v') :: set k v d'
  end.

(** [d.get(k, default)] on a dict *)
Definition dget (d : dict) (k : string) (default : pyval) : pyval :=
  match lookup (KStr k) d with
  | Some v => v
  | None => default
  end.

(** [v.get(k, default)]: only dicts have the method. *)
Definition get (v : pyval) (k : string) (default : pyval) : result pyval :=
  match v with
  | PDict d => Ok (dget d k default)
  | _ => Raise AttributeError
  end.

Definition is_str (k : string) (v : pyval) : bool :=
  match v with
  | PStr s => String.eqb s k
  | _ => false
  end.

(** [k in v] for a string [k]: key of a dict, element of a list, substring
    of a string. *)
Definition contains (k : string) (v : pyval) : result bool :=
  match v with
  | PDict d => Ok (match lookup (KStr k) d with Some _ => true | None => false end)
  | PList xs => Ok (existsb (is_str k) xs)
  | PStr s => Ok (match String.index 0 k s with Some _ => true | None => false end)
  | PNone | PBool _ | PInt _ => Raise TypeError
  end.

(** [v[k]] for a string [k] *)
Definition getitem (v : pyval) (k : string) : result pyval :=
  match v with
  | PDict d => match lookup (KStr k) d with Some x => Ok x | None => Raise KeyError end
  | _ => Raise TypeError
  end.

(** [v[0]] *)
Definition getitem0 (v : pyval) : result pyval :=
  match v with
  | PList xs => match xs with x :: _ => Ok x | [] => Raise IndexError end
  | PStr s => match s with String c _ => Ok (PStr (String c "")) | EmptyString => Raise IndexError end
  | PDict d => match lookup (KInt 0) d with Some x => Ok x | None => Raise KeyError end
  | PNone | PBool _ | PInt _ => Raise TypeError
  end.

Fixpoint chars (s : string) : list pyval :=
  match s with
  | EmptyString => []
  | String c s' => PStr (String c "") :: chars s'
  end.

(** The elements a [for] loop visits. *)
Definition iter (v : pyval) : result (list pyval) :=
  match v with
  | PList xs => Ok xs
  | PDict d => Ok (map (fun kv => key_value (fst kv)) d)
  | PStr s => Ok (chars s)
  | PNone | PBool _ | PInt _ => Raise TypeError
  end.

(** [len(v)] *)
Definition len (v : pyval) : result Z :=
  match v with
  | PList xs => Ok (Z.of_nat (length xs))
  | PDict d => Ok (Z.of_nat (length d))
  | PStr s => Ok (Z.of_nat (String.length s))
  | PNone | PBool _ | PInt _ => Raise TypeError
  end.

End Py.

(** A [for] loop whose body may raise: the first exception ends the loop. *)
Fixpoint for_each {A S} (body : S -> A -> result S) (xs : list A) (s : S) : result S :=
  match xs with
  | [] => Ok s
  | x :: xs' => s' <- body s x ;; for_each body xs' s'
  end.

(** ** The field normalizer *)

(** Lines 29-33: the label of a summary field, [None] when there is none. *)
Definition summary_ftype (field : pyval) : result pyval :=
  has_type <- Py.contains "Type" field ;;
  by_type <- (if has_type
              then ty <- Py.getitem field "Type" ;; Py.get ty "Text" PNone
              else Ok (PBool false)) ;;
  if Py.truthy by_type
  then ty <- Py.getitem field "Type" ;; Py.getitem ty "Text"
  else
    has_label <- Py.contains "LabelDetection" field ;;
    by_label <- (if has_label
                 then ld <- Py.getitem field "LabelDetection" ;; Py.get ld "Text" PNone
                 else Ok (PBool false)) ;;
    if Py.truthy by_label
    then ld <- Py.getitem field "LabelDetection" ;; Py.getitem ld "Text"
    else Ok PNone.

(** [field.get("ValueDetection", {}).get("Text")] *)
Definition value_text (field : pyval) : result pyval :=
  vd <- Py.get field "ValueDetection" (PDict []) ;;
  Py.get vd "Text" PNone.

(** Lines 29-36: one turn of the loop over the summary fields. *)
Definition summary_step (out : dict) (field : pyval) : result dict :=
  ftype <- summary_ftype field ;;
  val <- value_text field ;;
  if Py.truthy ftype
  then k <- Py.hash ftype ;; Ok (Py.set k val out)
  else Ok out.

Definition _parse_summary_fields (summary_fields : pyval) : result dict :=
  fields <- Py.iter (Py.or_ summary_fields (PList [])) ;;
  for_each summary_step fields [].

(** Line 46: the label of a line-item field; the right operand of [or] is
    only evaluated when the left one is falsy. *)
Definition line_field_label (field : pyval) : result pyval :=
  ty <- Py.get field "Type" (PDict []) ;;
  by_type <- Py.get ty "Text" PNone ;;
  if Py.truthy by_type
  then Ok by_type
  else
    ld <- Py.get field "LabelDetection" (PDict []) ;;
    Py.get ld "Text" PNone.

(** Lines 46-49: one turn of the loop over the fields of a line item. *)
Definition raw_step (item : dict) (field : pyval) : result dict :=
  t <- line_field_label field ;;
  v <- value_text field ;;
  if Py.truthy t
  then k <- Py.hash t ;; Ok (Py.set k v item)
  else Ok item.

(** Lines 51-57 *)
Definition normalized (item : dict) : dict :=
  [ (KStr "description", Py.dget item "ITEM" (Py.dget item "DESCRIPTION" (PStr "")));
    (KStr "quantity", Py.dget item "QUANTITY" (PStr ""));
    (KStr "unit_price", Py.dget item "PRICE" (Py.dget item "UNIT_PRICE" (PStr "")));
    (KStr "total", Py.dget item "TOTAL" (Py.dget item "LINE_TOTAL" (PStr "")));
    (KStr "_raw", PDict item) ].

(** Lines 44-49: the raw label-to-value mapping of one line item. *)
Definition raw_item (li : pyval) : result dict :=
  fields_v <- Py.get li "LineItemExpenseFields" (PList []) ;;
  fields <- Py.iter fields_v ;;
  for_each raw_step fields [].

(** Lines 43-58: one turn of the loop over the line items of a group. *)
Definition line_item_step (items : list dict) (li : pyval) : result (list dict) :=
  item <- raw_item li ;;
  Ok (items ++ [normalized item]).

(** Line 43: what the loop over [g.get("LineItems", [])] visits. *)
Definition line_items_of (g : pyval) : result (list pyval) :=
  lis_v <- Py.get g "LineItems" (PList []) ;;
  Py.iter lis_v.

(** Lines 42-58: one turn of the loop over the groups. *)
Definition group_step (items : list dict) (g : pyval) : result (list dict) :=
  lis <- line_items_of g ;;
  for_each line_item_step lis items.

Definition _parse_line_items (groups : pyval) : result (list dict) :=
  gs <- Py.iter (Py.or_ groups (PList [])) ;;
  for_each group_step gs [].

Definition _coalesce (value default : pyval) : pyval :=
  match value with
  | PNone => default
  | _ => value
  end.


(** ** Service calls, logging and the trace *)

Inductive loglevel : Type := INFO | WARNING | ERROR.

(** The keyword arguments of [ses.send_email]. *)
Record email : Type := Email {
  Source : string;
  ToAddresses : list string;
  Subject : string;
  BodyText : string;
  BodyHtml : string
}.

(** What an invocation does to the outside, in order. *)
Inductive effect : Type :=
| ELog (lvl : loglevel) (msg : string) (args : list pyval)
| EAnalyzeExpense (bucket key : pyval)
| EPutItem (item : pyval)
| ESendEmail (m : email).

(** Everything the handler reads from outside: the environment variables,
    the answers of the three services, the fresh uuid and the clock. *)
Record world : Type := World {
  SES_SENDER : string;
  SES_RECIPIENT : string;
  analyze_expense : pyval -> pyval -> result pyval;
  put_item : pyval -> result unit;
  send_email : email -> result unit;
  uuid4 : string;
  utcnow_isoformat : string
}.

(** A computation that leaves a trace and returns or raises. *)
Record io (A : Type) : Type := IO {
  trace : list effect;
  outcome : result A
}.
Arguments IO {A} trace outcome.
Arguments trace {A} i.
Arguments outcome {A} i.

Definition ret {A} (a : A) : io A := IO [] (Ok a).
Definition lift {A} (r : result A) : io A := IO [] r.
Definition log (lvl : loglevel) (msg : string) (args : list pyval) : io unit :=
  IO [ELog lvl msg args] (Ok tt).

Definition iobind {A B} (m : io A) (k : A -> io B) : io B :=
  match outcome m with
  | Ok a => IO (trace m ++ trace (k a)) (outcome (k a))
  | Raise e => IO (trace m) (Raise e)
  end.

(** [try: m except <catches> as e: h e] *)
Definition try_except {A} (m : io A) (catches : exn -> bool) (h : exn -> io A) : io A :=
  match outcome m with
  | Ok _ => m
  | Raise e =>
      if catches e
      then IO (trace m ++ trace (h e)) (outcome (h e))
      else m
  end.

Notation "x <~ m ;; k" := (iobind m (fun x => k))
  (at level 100, m at next level, right associativity) : py_scope.

Definition call_analyze_expense (w : world) (bucket key : pyval) : io pyval :=
  IO [EAnalyzeExpense bucket key] (analyze_expense w bucket key).
Definition call_put_item (w : world) (item : pyval) : io unit :=
  IO [EPutItem item] (put_item w item).
Definition call_send_email (w : world) (m : email) : io unit :=
  IO [ESendEmail m] (send_email w m).

(** ** The trigger adapter (lines 64-72) *)

Definition manual_hint : string := "Provide {bucket, key} when invoking manually.".

(** The test of line 64; only its truth value is used. *)
Definition is_s3_event (event : pyval) : result pyval :=
  has_records <- Py.contains "Records" event ;;
  if has_records
  then
    recs <- Py.getitem event "Records" ;;
    if Py.truthy recs
    then r0 <- Py.getitem0 recs ;; Py.get r0 "s3" PNone
    else Ok recs
  else Ok (PBool false).

Definition adapt_trigger (event : pyval) : result (pyval * pyval) :=
  c <- is_s3_event event ;;
  if Py.truthy c
  then
    recs <- Py.getitem event "Records" ;;
    rec <- Py.getitem0 recs ;;
    s3 <- Py.getitem rec "s3" ;;
    b <- Py.getitem s3 "bucket" ;;
    bucket <- Py.getitem b "name" ;;
    s3' <- Py.getitem rec "s3" ;;
    o <- Py.getitem s3' "object" ;;
    key <- Py.getitem o "key" ;;
    Ok (bucket, key)
  else
    bucket <- Py.get event "bucket" PNone ;;
    key <- Py.get event "key" PNone ;;
    if negb (Py.truthy bucket) || negb (Py.truthy key)
    then Raise (ValueError manual_hint)
    else Ok (bucket, key).

(** ** Normalization of the Textract response (lines 83-91) *)

Definition normalize (tx : pyval) : io (pyval * dict * list dict) :=
  expense_docs <~ lift (Py.get tx "ExpenseDocuments" (PList [])) ;;
  if negb (Py.truthy expense_docs)
  then
    _ <~ log WARNING "No ExpenseDocuments returned by Textract" [] ;;
    ret (expense_docs, [], [])
  else
    doc <~ lift (Py.getitem0 expense_docs) ;;
    sf <~ lift (Py.get doc "SummaryFields" (PList [])) ;;
    summary <~ lift (_parse_summary_fields sf) ;;
    groups <~ lift (Py.get doc "LineItemGroups" (PList [])) ;;
    items <~ lift (_parse_line_items groups) ;;
    ret (expense_docs, summary, items).

(** ** The report renderer and the handler *)

Definition nl : string := String (ascii_of_nat 10) EmptyString.
Definition dq : string := String (ascii_of_nat 34) EmptyString.

Section Handler.

(** [str()] of a list or a dict is its [repr]; no property below depends on
    how Python spells it, so it stays a parameter. *)
Variable py_repr : pyval -> string.

(** What an f-string field [{v}] expands to. *)
Definition py_str (v : pyval) : string :=
  match v with
  | PNone => "None"
  | PBool true => "True"
  | PBool false => "False"
  | PInt z => pretty z
  | PStr s => s
  | PList _ | PDict _ => py_repr v
  end.

(** Lines 114-116: [_coalesce(s.get(k1) or s.get(k2) or s.get(k3), default)] *)
Definition resolve (summary : dict) (k1 k2 k3 default : string) : pyval :=
  _coalesce
    (Py.or_ (Py.or_ (Py.dget summary k1 PNone) (Py.dget summary k2 PNone))
            (Py.dget summary k3 PNone))
    (PStr default).

Definition vendor_of (summary : dict) : pyval :=
  resolve summary "VENDOR_NAME" "RECEIVER_NAME" "SUPPLIER_NAME" "Unknown vendor".
Definition date_of (summary : dict) : pyval :=
  resolve summary "INVOICE_RECEIPT_DATE" "INVOICE_DATE" "RECEIPT_DATE" "Unknown date".
Definition total_of (summary : dict) : pyval :=
  resolve summary "TOTAL" "AMOUNT_DUE" "INVOICE_TOTAL" "Unknown total".

(** Line 119 *)
Definition text_line (i : dict) : string :=
  "- " +:+ py_str (Py.dget i "description" (PStr "?"))
  +:+ "  qty=" +:+ py_str (Py.dget i "quantity" (PStr "?"))
  +:+ "  price=" +:+ py_str (Py.dget i "unit_price" (PStr "?"))
  +:+ "  total=" +:+ py_str (Py.dget i "total" (PStr "?")).

(** Line 140 *)
Definition html_row (i : dict) : string :=
  "<tr><td>" +:+ py_str (Py.dget i "description" (PStr ""))
  +:+ "</td><td>" +:+ py_str (Py.dget i "quantity" (PStr ""))
  +:+ "</td><td>" +:+ py_str (Py.dget i "unit_price" (PStr ""))
  +:+ "</td><td>" +:+ py_str (Py.dget i "total" (PStr ""))
  +:+ "</td></tr>".

(** [s or fallback] on strings *)
Definition str_or (s fallback : string) : string :=
  if String.eqb s "" then fallback else s.

Definition no_items : string := "(no line items detected)".

(** Lines 118-121 *)
Definition lines_preview (items : list dict) : string :=
  str_or (String.concat nl (map text_line (take 10 items))) no_items.

(** Lines 139-142 *)
Definition html_items (items : list dict) : string :=
  str_or (String.concat "" (map html_row (take 50 items)))
         ("<tr><td colspan='4'>" +:+ no_items +:+ "</td></tr>").

(** Lines 123-137 *)
Definition text_body (vendor date total : pyval) (items : list dict)
    (receipt_id : string) (bucket key : pyval) (now_iso : string) : string :=
  nl +:+ "Your receipt has been processed." +:+ nl
  +:+ nl
  +:+ "Vendor: " +:+ py_str vendor +:+ nl
  +:+ "Date:   " +:+ py_str date +:+ nl
  +:+ "Total:  " +:+ py_str total +:+ nl
  +:+ nl
  +:+ "Top line items:" +:+ nl
  +:+ lines_preview items +:+ nl
  +:+ nl
  +:+ "Metadata:" +:+ nl
  +:+ "- Receipt ID: " +:+ receipt_id +:+ nl
  +:+ "- S3: s3://" +:+ py_str bucket +:+ "/" +:+ py_str key +:+ nl
  +:+ "- Inserted at: " +:+ now_iso +:+ nl.

(** Lines 144-156 *)
Definition html_body (vendor date total : pyval) (items : list dict)
    (receipt_id : string) (bucket key : pyval) (now_iso : string) : string :=
  "<html><body>" +:+ nl
  +:+ "<h2>Receipt processed</h2>" +:+ nl
  +:+ "<p><strong>Vendor</strong>: " +:+ py_str vendor +:+ "<br/>" +:+ nl
  +:+ "<strong>Date</strong>: " +:+ py_str date +:+ "<br/>" +:+ nl
  +:+ "<strong>Total</strong>: " +:+ py_str total +:+ "</p>" +:+ nl
  +:+ "<table border=" +:+ dq +:+ "1" +:+ dq +:+ " cellspacing=" +:+ dq +:+ "0" +:+ dq
  +:+ " cellpadding=" +:+ dq +:+ "6" +:+ dq +:+ ">" +:+ nl
  +:+ "<thead><tr><th>Description</th><th>Qty</th><th>Unit Price</th><th>Line Total</th></tr></thead>" +:+ nl
  +:+ "<tbody>" +:+ html_items items +:+ "</tbody>" +:+ nl
  +:+ "</table>" +:+ nl
  +:+ "<p>Receipt ID: " +:+ receipt_id +:+ "<br/>" +:+ nl
  +:+ "S3: s3://" +:+ py_str bucket +:+ "/" +:+ py_str key +:+ "<br/>" +:+ nl
  +:+ "Inserted at: " +:+ now_iso +:+ "</p>" +:+ nl
  +:+ "</body></html>".

(** Line 164 *)
Definition subject (vendor date total : pyval) : string :=
  "Receipt processed: " +:+ py_str vendor +:+ " on " +:+ py_str date
  +:+ " (Total " +:+ py_str total +:+ ")".

(** Lines 96-108 *)
Definition build_record (receipt_id : string) (bucket key : pyval) (now_iso : string)
    (summary : dict) (items : list dict) (doc_count : Z) : pyval :=
  PDict [ (KStr "receipt_id", PStr receipt_id);
          (KStr "s3_bucket", bucket);
          (KStr "s3_key", key);
          (KStr "inserted_at", PStr now_iso);
          (KStr "summary", PDict summary);
          (KStr "line_items", PList (map PDict items));
          (KStr "textract_meta",
             PDict [ (KStr "api", PStr "AnalyzeExpense");
                     (KStr "doc_count", PInt doc_count) ]) ].

(** Lines 160-170 *)
Definition build_email (w : world) (summary : dict) (items : list dict)
    (receipt_id : string) (bucket key : pyval) (now_iso : string) : email :=
  let vendor := vendor_of summary in
  let date := date_of summary in
  let total := total_of summary in
  {| Source := SES_SENDER w;
     ToAddresses := [SES_RECIPIENT w];
     Subject := subject vendor date total;
     BodyText := text_body vendor date total items receipt_id bucket key now_iso;
     BodyHtml := html_body vendor date total items receipt_id bucket key now_iso |}.

(** Line 175 *)
Definition success (receipt_id : string) (summary : dict) (items : list dict) : pyval :=
  PDict [ (KStr "status", PStr "ok");
          (KStr "receipt_id", PStr receipt_id);
          (KStr "summary", PDict summary);
          (KStr "line_items_count", PInt (Z.of_nat (length items))) ].

Definition handler (w : world) (event : pyval) : io pyval :=
  _ <~ log INFO "Received event: %s" [event] ;;
  bk <~ lift (adapt_trigger event) ;;
  let bucket := fst bk in
  let key := snd bk in
  tx <~ try_except (call_analyze_expense w bucket key) is_ClientError
          (fun e => _ <~ log ERROR "Textract analyze_expense failed" [] ;; lift (Raise e)) ;;
  n <~ normalize tx ;;
  let expense_docs := fst (fst n) in
  let summary := snd (fst n) in
  let items := snd n in
  let receipt_id := uuid4 w in
  let now_iso := utcnow_isoformat w +:+ "Z" in
  doc_count <~ lift (Py.len expense_docs) ;;
  let record := build_record receipt_id bucket key now_iso summary items doc_count in
  _ <~ call_put_item w record ;;
  let message := build_email w summary items receipt_id bucket key now_iso in
  _ <~ try_except
         (_ <~ call_send_email w message ;;
          log INFO "SES email sent to %s" [PStr (SES_RECIPIENT w)])
         is_ClientError
         (fun _ => log ERROR "Failed to send SES email. Is the identity verified / out of sandbox?" []) ;;
  ret (success receipt_id summary items).

End Handler.


(** * Vocabulary of the properties *)

(** The key under which a summary field is stored, if it is stored. *)
Definition entry_key (field : pyval) : option pykey :=
  match summary_ftype field with
  | Ok ftype =>
      if Py.truthy ftype
      then match Py.hash ftype with Ok k => Some k | Raise _ => None end
      else None
  | Raise _ => None
  end.

Definition summary_field (label value : string) : pyval :=
  PDict [ (KStr "Type", PDict [(KStr "Text", PStr label)]);
          (KStr "ValueDetection", PDict [(KStr "Text", PStr value)]) ].

Definition two_totals : list pyval :=
  [ summary_field "TOTAL" "1.00"; summary_field "VENDOR_NAME" "ACME";
    summary_field "TOTAL" "2.00"; summary_field "INVOICE_DATE" "2024-01-01" ].

(** "The [k1] value, else the [k2] value, ..., else empty": the value of the
    first key of [keys] that the raw mapping has. *)
Fixpoint synonym_fallback (raw : dict) (keys : list string) : pyval :=
  match keys with
  | [] => PStr ""
  | k :: keys' =>
      match Py.lookup (KStr k) raw with
      | Some v => v
      | None => synonym_fallback raw keys'
      end
  end.

(** [li] is one of the line items the loops of [_parse_line_items] visit. *)
Definition line_item_in (groups li : pyval) : Prop :=
  exists gs g lis,
    Py.iter (Py.or_ groups (PList [])) = Ok gs /\ In g gs /\
    line_items_of g = Ok lis /\ In li lis.

(** What C6 says of one normalized item [it] with raw mapping [raw]. *)
Definition derived_by_fallback (raw it : dict) : Prop :=
  Py.lookup (KStr "_raw") it = Some (PDict raw) /\
  Py.lookup (KStr "description") it = Some (synonym_fallback raw ["ITEM"; "DESCRIPTION"]) /\
  Py.lookup (KStr "quantity") it = Some (synonym_fallback raw ["QUANTITY"]) /\
  Py.lookup (KStr "unit_price") it = Some (synonym_fallback raw ["PRICE"; "UNIT_PRICE"]) /\
  Py.lookup (KStr "total") it = Some (synonym_fallback raw ["TOTAL"; "LINE_TOTAL"]) /\
  (forall p, Py.lookup (KStr "PRICE") raw = Some p ->
             Py.lookup (KStr "UNIT_PRICE") raw = None ->
             Py.lookup (KStr "unit_price") it = Some p) /\
  (Py.lookup (KStr "PRICE") raw = None ->
   Py.lookup (KStr "UNIT_PRICE") raw = None ->
   Py.lookup (KStr "unit_price") it = Some (PStr "")).

(** A line-item field with a label and, optionally, a detected value. *)
Definition item_field (label : string) (value : option string) : pyval :=
  PDict ((KStr "Type", PDict [(KStr "Text", PStr label)]) ::
         match value with
         | Some v => [(KStr "ValueDetection", PDict [(KStr "Text", PStr v)])]
         | None => []
         end).

Definition one_group (line_items : list (list pyval)) : pyval :=
  PList [ PDict [ (KStr "LineItems",
                   PList (map (fun fs => PDict [(KStr "LineItemExpenseFields", PList fs)])
                              line_items)) ] ].

(** Two line items: one priced through "PRICE", one with no price at all. *)
Definition priced_groups : pyval :=
  one_group [ [ item_field "ITEM" (Some "Coffee"); item_field "PRICE" (Some "3.50") ];
              [ item_field "DESCRIPTION" (Some "Tip"); item_field "LINE_TOTAL" (Some "1.00") ] ].

(** One line item whose "ITEM" field was detected without a value. *)
Definition valueless_groups : pyval :=
  one_group [ [ item_field "ITEM" None; item_field "DESCRIPTION" (Some "Coffee") ] ].

(** The summary has no usable value under [k]: no binding, or a falsy one. *)
Definition absent_or_falsy (s : dict) (k : string) : Prop :=
  match Py.lookup (KStr k) s with
  | Some v => Py.truthy v = false
  | None => True
  end.

(** "[r] is resolved from [k1], else [k2], else [k3], else the fallback". *)
Definition resolved_in_order (s : dict) (k1 k2 k3 fallback : string) (r : pyval) : Prop :=
  (forall v, Py.lookup (KStr k1) s = Some v -> Py.truthy v = true -> r = v) /\
  (forall v, absent_or_falsy s k1 ->
             Py.lookup (KStr k2) s = Some v -> Py.truthy v = true -> r = v) /\
  (forall v, absent_or_falsy s k1 -> absent_or_falsy s k2 ->
             Py.lookup (KStr k3) s = Some v -> v <> PNone -> r = v) /\
  (Py.lookup (KStr k1) s = None -> Py.lookup (KStr k2) s = None ->
   Py.lookup (KStr k3) s = None -> r = PStr fallback).

Definition receiver_summary : dict :=
  [ (KStr "TOTAL", PStr "42.00"); (KStr "VENDOR_NAME", PStr "");
    (KStr "RECEIVER_NAME", PStr "Bob") ].

(** [part] occurs in [body]. *)
Definition contains_text (body part : string) : Prop :=
  exists pre post, body = pre +:+ part +:+ post.

(** The four attributes of the item [i] are the strings of [r]: description,
    quantity, unit price and total. *)
Definition has_texts (i : dict) (r : string * string * string * string) : Prop :=
  let '(d, q, p, t) := r in
  Py.lookup (KStr "description") i = Some (PStr d) /\
  Py.lookup (KStr "quantity") i = Some (PStr q) /\
  Py.lookup (KStr "unit_price") i = Some (PStr p) /\
  Py.lookup (KStr "total") i = Some (PStr t).

(** Line items numbered from 1: item [n] costs [n].50 apiece, [n] of them. *)
Definition numbered_texts (n : Z) : string * string * string * string :=
  ("item " +:+ pretty n, pretty n, pretty n +:+ ".50", pretty (n * n)%Z +:+ ".00").

Definition numbered_item (n : Z) : dict :=
  let '(d, q, p, t) := numbered_texts n in
  normalized [ (KStr "ITEM", PStr d); (KStr "QUANTITY", PStr q);
               (KStr "PRICE", PStr p); (KStr "TOTAL", PStr t) ].

Definition numbers (n : nat) : list Z := map Z.of_nat (seq 1 n).

Definition fifty_two_items : list dict := map numbered_item (numbers 52).

(** The handler in two halves: everything up to the record, and the write
    followed by the mail.  [handler_split] shows they compose to [handler]. *)
Record prepared : Type := Prepared {
  p_bucket : pyval;
  p_key : pyval;
  p_summary : dict;
  p_items : list dict;
  p_doc_count : Z
}.

Definition prepare (w : world) (event : pyval) : io prepared :=
  _ <~ log INFO "Received event: %s" [event] ;;
  bk <~ lift (adapt_trigger event) ;;
  tx <~ try_except (call_analyze_expense w (fst bk) (snd bk)) is_ClientError
          (fun e => _ <~ log ERROR "Textract analyze_expense failed" [] ;; lift (Raise e)) ;;
  n <~ normalize tx ;;
  doc_count <~ lift (Py.len (fst (fst n))) ;;
  ret (Prepared (fst bk) (snd bk) (snd (fst n)) (snd n) doc_count).

Definition now_iso_of (w : world) : string := utcnow_isoformat w +:+ "Z".

Definition record_of (w : world) (p : prepared) : pyval :=
  build_record (uuid4 w) (p_bucket p) (p_key p) (now_iso_of w)
    (p_summary p) (p_items p) (p_doc_count p).

Definition email_of (py_repr : pyval -> string) (w : world) (p : prepared) : email :=
  build_email py_repr w (p_summary p) (p_items p) (uuid4 w) (p_bucket p) (p_key p)
    (now_iso_of w).

Definition finish (py_repr : pyval -> string) (w : world) (p : prepared) : io pyval :=
  _ <~ call_put_item w (record_of w p) ;;
  _ <~ try_except
         (_ <~ call_send_email w (email_of py_repr w p) ;;
          log INFO "SES email sent to %s" [PStr (SES_RECIPIENT w)])
         is_ClientError
         (fun _ => log ERROR "Failed to send SES email. Is the identity verified / out of sandbox?" []) ;;
  ret (success (uuid4 w) (p_summary p) (p_items p)).

(** Logging and the Textract call: the effects that write nothing. *)
Definition quiet (e : effect) : Prop :=
  match e with
  | ELog _ _ _ | EAnalyzeExpense _ _ => True
  | EPutItem _ | ESendEmail _ => False
  end.

(** The two payload shapes of the trigger, and whether a shape yields both a
    non-empty bucket and a non-empty key. *)
Definition storage_shape (event : pyval) : option (pyval * pyval) :=
  match event with
  | PDict d =>
      match Py.lookup (KStr "Records") d with
      | Some (PList (PDict r0 :: _)) =>
          match Py.lookup (KStr "s3") r0 with
          | Some (PDict s3) =>
              match Py.lookup (KStr "bucket") s3, Py.lookup (KStr "object") s3 with
              | Some (PDict b), Some (PDict o) =>
                  match Py.lookup (KStr "name") b, Py.lookup (KStr "key") o with
                  | Some bucket, Some key => Some (bucket, key)
                  | _, _ => None
                  end
              | _, _ => None
              end
          | _ => None
          end
      | _ => None
      end
  | _ => None
  end.

Definition manual_shape (event : pyval) : option (pyval * pyval) :=
  match event with
  | PDict d =>
      match Py.lookup (KStr "bucket") d, Py.lookup (KStr "key") d with
      | Some bucket, Some key => Some (bucket, key)
      | _, _ => None
      end
  | _ => None
  end.

Definition yields_ids (shape : option (pyval * pyval)) : bool :=
  match shape with
  | Some (bucket, key) => Py.truthy bucket && Py.truthy key
  | None => false
  end.

(** Sample payloads and worlds. *)
Definition manual_event (bucket key : string) : pyval :=
  PDict [ (KStr "bucket", PStr bucket); (KStr "key", PStr key) ].

Definition s3_event (bucket key : string) : pyval :=
  PDict [ (KStr "Records",
           PList [ PDict [ (KStr "s3",
                            PDict [ (KStr "bucket", PDict [(KStr "name", PStr bucket)]);
                                    (KStr "object", PDict [(KStr "key", PStr key)]) ]) ] ]) ].

Definition one_document : pyval :=
  PDict [ (KStr "ExpenseDocuments",
           PList [ PDict [ (KStr "SummaryFields", PList [summary_field "TOTAL" "42.00"]) ] ]) ].

Definition no_documents : pyval := PDict [ (KStr "ExpenseDocuments", PList []) ].

Definition sample_world (tx : pyval) (put : result unit) (send : result unit) : world :=
  {| SES_SENDER := "sender@example.com";
     SES_RECIPIENT := "recipient@example.com";
     analyze_expense := fun _ _ => Ok tx;
     put_item := fun _ => put;
     send_email := fun _ => send;
     uuid4 := "123e4567-e89b-42d3-a456-426614174000";
     utcnow_isoformat := "2024-01-01T00:00:00" |}.

Definition no_repr : pyval -> string := fun _ => "".

(** The shape Textract documents for an expense field: a dict whose "Type",
    "LabelDetection" and "ValueDetection" members, when there, are dicts
    whose "Text", when there, is a string or [None]. *)
Definition is_text (v : pyval) : bool :=
  match v with
  | PNone | PStr _ => true
  | _ => false
  end.

Definition wf_detection (v : pyval) : bool :=
  match v with
  | PDict d =>
      match Py.lookup (KStr "Text") d with
      | Some t => is_text t
      | None => true
      end
  | _ => false
  end.

Definition wf_member (d : dict) (k : string) : bool :=
  match Py.lookup (KStr k) d with
  | Some v => wf_detection v
  | None => true
  end.

Definition wf_field (field : pyval) : bool :=
  match field with
  | PDict d => wf_member d "Type" && wf_member d "LabelDetection" && wf_member d "ValueDetection"
  | _ => false
  end.

Definition wf_line_item (li : pyval) : bool :=
  match li with
  | PDict d =>
      match Py.lookup (KStr "LineItemExpenseFields") d with
      | Some (PList fields) => forallb wf_field fields
      | Some _ => false
      | None => true
      end
  | _ => false
  end.

Definition wf_group (g : pyval) : bool :=
  match g with
  | PDict d =>
      match Py.lookup (KStr "LineItems") d with
      | Some (PList lis) => forallb wf_line_item lis
      | Some _ => false
      | None => true
      end
  | _ => false
  end.

(** ** Vocabulary of the further properties *)

(** The key under which a line-item field is stored, if it is stored. *)
Definition line_entry_key (field : pyval) : option pykey :=
  match line_field_label field with
  | Ok t =>
      if Py.truthy t
      then match Py.hash t with Ok k => Some k | Raise _ => None end
      else None
  | Raise _ => None
  end.

(** Keys in order of first occurrence. *)
Definition add_key (ks : list pykey) (k : pykey) : list pykey :=
  if in_dec pykey_eq_dec k ks then ks else ks ++ [k].
Definition first_occurrences (ks : list pykey) : list pykey :=
  fold_left add_key ks [].

(** The calls to the three services, without the logging. *)
Definition is_call (e : effect) : bool :=
  match e with
  | ELog _ _ _ => false
  | EAnalyzeExpense _ _ | EPutItem _ | ESendEmail _ => true
  end.
Definition service_calls (t : list effect) : list effect := filter is_call t.

(** An expense document whose summary fields and line-item groups, when
    there, are lists of well-shaped entries. *)
Definition wf_document (doc : pyval) : bool :=
  match doc with
  | PDict d =>
      match Py.lookup (KStr "SummaryFields") d with
      | Some (PList fields) => forallb wf_field fields
      | Some _ => false
      | None => true
      end &&
      match Py.lookup (KStr "LineItemGroups") d with
      | Some (PList groups) => forallb wf_group groups
      | Some _ => false
      | None => true
      end
  | _ => false
  end.

(** A storage event that also carries top-level identifiers and a second record. *)
Definition mixed_event : pyval :=
  PDict [ (KStr "bucket", PStr "manual-bucket");
          (KStr "key", PStr "manual-key");
          (KStr "Records",
           PList [ PDict [ (KStr "s3",
                            PDict [ (KStr "bucket", PDict [(KStr "name", PStr "b")]);
                                    (KStr "object", PDict [(KStr "key", PStr "k")]) ]) ];
                   PDict [ (KStr "s3",
                            PDict [ (KStr "bucket", PDict [(KStr "name", PStr "b2")]);
                                    (KStr "object", PDict [(KStr "key", PStr "k2")]) ]) ] ]) ].

(** A storage event whose first record lacks the object key. *)
Definition keyless_event : pyval :=
  PDict [ (KStr "Records",
           PList [ PDict [ (KStr "s3",
                            PDict [ (KStr "bucket", PDict [(KStr "name", PStr "b")]) ]) ] ]) ].

Definition failing_textract_world (e : exn) : world :=
  {| SES_SENDER := "sender@example.com";
     SES_RECIPIENT := "recipient@example.com";
     analyze_expense := fun _ _ => Raise e;
     put_item := fun _ => Ok tt;
     send_email := fun _ => Ok tt;
     uuid4 := "123e4567-e89b-42d3-a456-426614174000";
     utcnow_isoformat := "2024-01-01T00:00:00" |}.

(** Two groups with one line item each; the second names its item twice. *)
Definition tip_fields : list pyval :=
  [ item_field "ITEM" (Some "Tip"); item_field "TOTAL" (Some "1.00");
    item_field "ITEM" (Some "Gratuity") ].

Definition tip_line_item : pyval :=
  PDict [ (KStr "LineItemExpenseFields", PList tip_fields) ].

Definition sample_groups : list pyval :=
  [ PDict [ (KStr "LineItems",
             PList [ PDict [ (KStr "LineItemExpenseFields",
                              PList [ item_field "ITEM" (Some "Coffee");
                                      item_field "PRICE" (Some "3.50") ]) ] ]) ];
    PDict [ (KStr "LineItems", PList [ tip_line_item ]) ] ].

(** A document with two summary fields and the two groups above. *)
Definition full_document : pyval :=
  PDict [ (KStr "SummaryFields",
           PList [ summary_field "VENDOR_NAME" "ACME"; summary_field "TOTAL" "4.50" ]);
          (KStr "LineItemGroups", PList sample_groups) ].

(** Line 45: what the loop over the fields of a line item visits. *)
Definition fields_of (li : pyval) : result (list pyval) :=
  fields_v <- Py.get li "LineItemExpenseFields" (PList []) ;;
  Py.iter fields_v.

Definition item_keys : list pykey :=
  [ KStr "description"; KStr "quantity"; KStr "unit_price"; KStr "total"; KStr "_raw" ].

Definition documents (docs : list pyval) : pyval :=
  PDict [ (KStr "ExpenseDocuments", PList docs) ].

(** * Properties *)

(** ** Dicts *)

Lemma lookup_set_eq k v d : Py.lookup k (Py.set k v d) = Some v.
Proof.
  induction d as [|[k' v'] d IH]; simpl.
  - by rewrite decide_True.
  - destruct (decide (k = k')) as [->|Hne]; simpl.
    + by rewrite decide_True.
    + by rewrite decide_False.
Qed.

Lemma lookup_set_ne k k' v d : k <> k' -> Py.lookup k' (Py.set k v d) = Py.lookup k' d.
Proof.
  intros Hne. induction d as [|[k0 v0] d IH]; simpl.
  - by rewrite decide_False.
  - destruct (decide (k = k0)) as [->|Hk]; simpl.
    + by rewrite !(decide_False (P := k' = k0)).
    + destruct (decide (k' = k0)); auto.
Qed.

Lemma lookup_None_keys k d : Py.lookup k d = None <-> ~ In k (map fst d).
Proof.
  induction d as [|[k' v'] d IH]; simpl.
  - tauto.
  - destruct (decide (k = k')) as [->|Hne].
    + split; [discriminate | tauto].
    + rewrite IH. split; [intros H [E|E]; congruence || tauto | tauto].
Qed.

Lemma keys_set k v d :
  map fst (Py.set k v d) =
  match Py.lookup k d with
  | Some _ => map fst d
  | None => map fst d ++ [k]
  end.
Proof.
  induction d as [|[k' v'] d IH]; simpl; [done|].
  destruct (decide (k = k')); simpl; [done|].
  rewrite IH. by destruct (Py.lookup k d).
Qed.

Lemma NoDup_keys_set k v d : NoDup (map fst d) -> NoDup (map fst (Py.set k v d)).
Proof.
  intros Hd. rewrite keys_set.
  destruct (Py.lookup k d) eqn:E; [done|].
  apply NoDup_app. split; [done|]. split.
  - intros x Hx Hk. apply list_elem_of_In in Hx.
    apply list_elem_of_In in Hk. simpl in Hk. destruct Hk as [<-|[]].
    by apply lookup_None_keys in E.
  - apply NoDup_singleton.
Qed.

(** ** Loops *)

Lemma for_each_app {A S} (body : S -> A -> result S) xs ys s :
  for_each body (xs ++ ys) s = (s' <- for_each body xs s ;; for_each body ys s').
Proof.
  revert s. induction xs as [|x xs IH]; intros s; simpl; [done|].
  destruct (body s x); simpl; auto.
Qed.

(** An invariant of the loop state that every turn keeps holds at the end. *)
Lemma for_each_invariant {A S} (P : S -> Prop) (Q : A -> Prop) (body : S -> A -> result S) :
  (forall s x s', Q x -> P s -> body s x = Ok s' -> P s') ->
  forall xs s s', Forall Q xs -> P s -> for_each body xs s = Ok s' -> P s'.
Proof.
  intros Hstep xs. induction xs as [|x xs IH]; intros s s' HQ Hs; simpl.
  - by intros [= <-].
  - inversion HQ; subst.
    destruct (body s x) as [s1|e] eqn:E; simpl; [|discriminate].
    intros H. apply (IH s1 s'); [assumption | | exact H].
    by apply (Hstep s x s1).
Qed.

(** Inversion of a successful bind. *)
Lemma rbind_Ok {A B} (m : result A) (k : A -> result B) b :
  rbind m k = Ok b -> exists a, m = Ok a /\ k a = Ok b.
Proof. destruct m; simpl; [eauto | discriminate]. Qed.

(** ** Summary fields *)

Lemma summary_step_inv out field out' :
  summary_step out field = Ok out' ->
  match entry_key field with
  | Some k => exists v, value_text field = Ok v /\ out' = Py.set k v out
  | None => out' = out
  end.
Proof.
  unfold summary_step, entry_key.
  destruct (summary_ftype field) as [ftype|]; simpl; [|discriminate].
  destruct (value_text field) as [v|]; simpl; [|discriminate].
  destruct (Py.truthy ftype); [|by intros [= <-]].
  destruct (Py.hash ftype) as [k|]; simpl; [|discriminate].
  intros [= <-]. eauto.
Qed.

Lemma summary_loop_NoDup fields out out' :
  NoDup (map fst out) -> for_each summary_step fields out = Ok out' -> NoDup (map fst out').
Proof.
  intros Hout. apply (for_each_invariant (fun s => NoDup (map fst s)) (fun _ => True)).
  - intros s x s' _ Hs Hstep. apply summary_step_inv in Hstep.
    destruct (entry_key x).
    + destruct Hstep as (v & _ & ->). by apply NoDup_keys_set.
    + by subst.
  - by apply Forall_forall.
  - done.
Qed.

Lemma summary_loop_keeps k fields out out' :
  Forall (fun g => entry_key g <> Some k) fields ->
  for_each summary_step fields out = Ok out' ->
  Py.lookup k out' = Py.lookup k out.
Proof.
  intros Hk.
  apply (for_each_invariant (fun s => Py.lookup k s = Py.lookup k out)
           (fun g => entry_key g <> Some k)); [|done|done].
  intros s x s' Hx Hs Hstep. apply summary_step_inv in Hstep.
  destruct (entry_key x) as [k'|].
  - destruct Hstep as (v & _ & ->). rewrite lookup_set_ne; [done|congruence].
  - by subst.
Qed.

(** C5: in the summary built from a list of fields, a label is mapped to the
    detected value of the last field that resolves to it, whatever came
    before, and no key occurs twice. *)
Theorem C5_summary_last_entry_wins (summary_fields : pyval) (summary : dict) :
  _parse_summary_fields summary_fields = Ok summary ->
  NoDup (map fst summary) /\
  forall fields before field after k v,
    Py.iter (Py.or_ summary_fields (PList [])) = Ok fields ->
    fields = before ++ field :: after ->
    entry_key field = Some k ->
    value_text field = Ok v ->
    Forall (fun g => entry_key g <> Some k) after ->
    Py.lookup k summary = Some v.
Proof.
  unfold _parse_summary_fields. intros Hparse.
  apply rbind_Ok in Hparse as (fs & Hiter & Hloop). split.
  - eapply summary_loop_NoDup; [|exact Hloop]. constructor.
  - intros fields before field after k v Hfields -> Hkey Hval Hafter.
    assert (fs = before ++ field :: after) as -> by congruence.
    rewrite for_each_app in Hloop.
    apply rbind_Ok in Hloop as (mid & _ & Hloop). simpl in Hloop.
    apply rbind_Ok in Hloop as (mid' & Hstep & Hloop).
    apply summary_step_inv in Hstep. rewrite Hkey in Hstep.
    destruct Hstep as (v' & Hv' & ->).
    rewrite (summary_loop_keeps k after _ summary Hafter Hloop).
    rewrite lookup_set_eq. congruence.
Qed.

Lemma C5_summary_last_entry_wins_witness :
  exists summary,
    _parse_summary_fields (PList two_totals) = Ok summary /\
    NoDup (map fst summary) /\
    Py.lookup (KStr "TOTAL") summary = Some (PStr "2.00").
Proof.
  exists [ (KStr "TOTAL", PStr "2.00"); (KStr "VENDOR_NAME", PStr "ACME");
           (KStr "INVOICE_DATE", PStr "2024-01-01") ].
  split; [reflexivity|].
  destruct (C5_summary_last_entry_wins (PList two_totals)
              [ (KStr "TOTAL", PStr "2.00"); (KStr "VENDOR_NAME", PStr "ACME");
                (KStr "INVOICE_DATE", PStr "2024-01-01") ] eq_refl) as [Hnodup Hlast].
  split; [exact Hnodup|].
  apply (Hlast two_totals
           [summary_field "TOTAL" "1.00"; summary_field "VENDOR_NAME" "ACME"]
           (summary_field "TOTAL" "2.00")
           [summary_field "INVOICE_DATE" "2024-01-01"]
           (KStr "TOTAL") (PStr "2.00")); try reflexivity.
  repeat constructor. vm_compute. discriminate.
Defined.

(** ** Line items *)

Lemma line_item_step_inv items li items' :
  line_item_step items li = Ok items' ->
  exists raw, raw_item li = Ok raw /\ items' = items ++ [normalized raw].
Proof.
  unfold line_item_step. intros H.
  apply rbind_Ok in H as (raw & Hraw & [= <-]). eauto.
Qed.

(** Every item in the output is the normalization of the raw mapping of a
    line item that the loops visited. *)
Lemma parse_line_items_origin groups items :
  _parse_line_items groups = Ok items ->
  Forall (fun it => exists li raw,
            line_item_in groups li /\ raw_item li = Ok raw /\ it = normalized raw) items.
Proof.
  unfold _parse_line_items. intros H.
  apply rbind_Ok in H as (gs & Hgs & Hloop).
  revert Hloop.
  apply (for_each_invariant
           (fun its => Forall (fun it => exists li raw,
              line_item_in groups li /\ raw_item li = Ok raw /\ it = normalized raw) its)
           (fun g => In g gs)); [|by apply List.Forall_forall|constructor].
  intros its g its' Hg Hits Hstep. unfold group_step in Hstep.
  apply rbind_Ok in Hstep as (lis & Hlis & Hinner).
  revert Hinner.
  apply (for_each_invariant
           (fun its => Forall (fun it => exists li raw,
              line_item_in groups li /\ raw_item li = Ok raw /\ it = normalized raw) its)
           (fun li => In li lis)); [|by apply List.Forall_forall|exact Hits].
  intros its1 li its2 Hli Hits1 Hstep.
  apply line_item_step_inv in Hstep as (raw & Hraw & ->).
  apply Forall_app. split; [exact Hits1|].
  constructor; [|constructor].
  exists li, raw. split; [|done].
  by exists gs, g, lis.
Qed.

Lemma normalized_derived raw : derived_by_fallback raw (normalized raw).
Proof.
  unfold derived_by_fallback, normalized, Py.dget; simpl.
  repeat split.
  - intros p -> _. done.
  - intros -> ->. done.
Qed.

(** C6: each normalized attribute of a line item is read from the item's raw
    label-to-value mapping by synonym fallback: description from "ITEM" else
    "DESCRIPTION", quantity from "QUANTITY", unit price from "PRICE" else
    "UNIT_PRICE", total from "TOTAL" else "LINE_TOTAL", and the empty string
    when no candidate label is in the mapping. *)
Theorem C6_line_item_synonym_fallback (groups : pyval) (items : list dict) :
  _parse_line_items groups = Ok items ->
  Forall (fun it => exists li raw,
            line_item_in groups li /\ raw_item li = Ok raw /\
            derived_by_fallback raw it) items.
Proof.
  intros H. apply parse_line_items_origin in H.
  eapply Forall_impl; [exact H|].
  intros it (li & raw & Hin & Hraw & ->).
  exists li, raw. auto using normalized_derived.
Qed.

Lemma C6_line_item_synonym_fallback_witness :
  exists items,
    _parse_line_items priced_groups = Ok items /\
    map (fun it => Py.lookup (KStr "unit_price") it) items
      = [Some (PStr "3.50"); Some (PStr "")] /\
    Forall (fun it => exists li raw,
              line_item_in priced_groups li /\ raw_item li = Ok raw /\
              derived_by_fallback raw it) items.
Proof.
  eexists. split; [reflexivity|]. split; [reflexivity|].
  apply C6_line_item_synonym_fallback. reflexivity.
Defined.

(** C1, as the code has it: a line item whose "ITEM" field carries no
    detected value is normalized to a description of [None], not to the
    empty string and not to the "DESCRIPTION" value. *)
Theorem C1_valueless_field_gives_None :
  _parse_line_items valueless_groups =
  Ok [ [ (KStr "description", PNone);
         (KStr "quantity", PStr "");
         (KStr "unit_price", PStr "");
         (KStr "total", PStr "");
         (KStr "_raw", PDict [(KStr "ITEM", PNone); (KStr "DESCRIPTION", PStr "Coffee")]) ] ].
Proof. reflexivity. Qed.

(** ** The normalizer returns on well-shaped input *)

Lemma for_each_total {A S} (Q : A -> Prop) (body : S -> A -> result S) :
  (forall s x, Q x -> exists s', body s x = Ok s') ->
  forall xs s, Forall Q xs -> exists s', for_each body xs s = Ok s'.
Proof.
  intros Hbody xs. induction xs as [|x xs IH]; intros s HQ; simpl; [eauto|].
  inversion HQ; subst.
  destruct (Hbody s x) as [s1 ->]; [assumption|]. simpl. by apply IH.
Qed.

Lemma forallb_Forall {A} (f : A -> bool) xs :
  forallb f xs = true -> Forall (fun x => f x = true) xs.
Proof.
  intros H. apply List.Forall_forall. intros x Hx.
  by apply (proj1 (forallb_forall f xs) H).
Qed.

Lemma hash_text t : is_text t = true -> exists k, Py.hash t = Ok k.
Proof. destruct t; simpl; try discriminate; eauto. Qed.

Lemma detection_text d k v :
  wf_member d k = true -> Py.lookup (KStr k) d = Some v ->
  exists d', v = PDict d' /\ is_text (Py.dget d' "Text" PNone) = true /\
             (forall t, Py.lookup (KStr "Text") d' = Some t -> is_text t = true).
Proof.
  unfold wf_member, wf_detection, Py.dget. intros Hwf Hv. rewrite Hv in Hwf.
  destruct v as [| | | | |d']; try discriminate. exists d'. split; [reflexivity|].
  destruct (Py.lookup (KStr "Text") d'); [|split; [done|discriminate]].
  split; [done|]. by intros ? [= <-].
Qed.

Lemma value_text_total field : wf_field field = true -> exists v, value_text field = Ok v.
Proof.
  destruct field as [| | | | |d]; try discriminate. simpl.
  intros [[_ _]%andb_true_iff Hv]%andb_true_iff.
  unfold value_text, Py.get, Py.dget at 1; simpl.
  destruct (Py.lookup (KStr "ValueDetection") d) as [v|] eqn:E; simpl; [|eauto].
  destruct (detection_text _ _ _ Hv E) as (d' & -> & _). simpl. eauto.
Qed.

Lemma summary_ftype_total field :
  wf_field field = true -> exists t, summary_ftype field = Ok t /\ is_text t = true.
Proof.
  destruct field as [| | | | |d]; try discriminate. simpl.
  intros [[Ht Hl]%andb_true_iff _]%andb_true_iff.
  unfold summary_ftype, Py.contains, Py.getitem at 1 2; simpl.
  assert (exists t, (has_label <- Py.contains "LabelDetection" (PDict d) ;;
            by_label <- (if has_label
                         then ld <- Py.getitem (PDict d) "LabelDetection" ;; Py.get ld "Text" PNone
                         else Ok (PBool false)) ;;
            if Py.truthy by_label
            then ld <- Py.getitem (PDict d) "LabelDetection" ;; Py.getitem ld "Text"
            else Ok PNone) = Ok t /\ is_text t = true) as Hlabel.
  { unfold Py.contains, Py.getitem at 1 2; simpl.
    destruct (Py.lookup (KStr "LabelDetection") d) as [ld|] eqn:E; simpl; [|eauto].
    destruct (detection_text _ _ _ Hl E) as (d' & -> & _ & Htext). simpl.
    unfold Py.dget. destruct (Py.lookup (KStr "Text") d') as [t|] eqn:Et; simpl; [|eauto].
    destruct (Py.truthy t); simpl; rewrite ?Et; eauto. }
  destruct (Py.lookup (KStr "Type") d) as [ty|] eqn:E; simpl; [|exact Hlabel].
  destruct (detection_text _ _ _ Ht E) as (d' & -> & _ & Htext). simpl.
  unfold Py.dget. destruct (Py.lookup (KStr "Text") d') as [t|] eqn:Et; simpl; [|exact Hlabel].
  destruct (Py.truthy t); simpl; rewrite ?Et; eauto.
Qed.

Lemma line_field_label_total field :
  wf_field field = true -> exists t, line_field_label field = Ok t /\ is_text t = true.
Proof.
  destruct field as [| | | | |d]; try discriminate. simpl.
  intros [[Ht Hl]%andb_true_iff _]%andb_true_iff.
  unfold line_field_label, Py.get at 1; simpl.
  assert (exists t, (ld <- Py.get (PDict d) "LabelDetection" (PDict []) ;;
                     Py.get ld "Text" PNone) = Ok t /\ is_text t = true) as Hlabel.
  { unfold Py.get at 1, Py.dget at 1; simpl.
    destruct (Py.lookup (KStr "LabelDetection") d) as [ld|] eqn:E; simpl; [|eauto].
    destruct (detection_text _ _ _ Hl E) as (d' & -> & Htext & _). simpl. eauto. }
  unfold Py.dget at 1.
  destruct (Py.lookup (KStr "Type") d) as [ty|] eqn:E; simpl; [|exact Hlabel].
  destruct (detection_text _ _ _ Ht E) as (d' & -> & Htext & _). simpl.
  destruct (Py.truthy (Py.dget d' "Text" PNone)); eauto.
Qed.

(** On a list of well-shaped fields the summary is always produced, whatever
    members the fields lack. *)
Lemma parse_summary_fields_total fields :
  forallb wf_field fields = true ->
  exists summary, _parse_summary_fields (PList fields) = Ok summary.
Proof.
  intros Hwf%forallb_Forall. unfold _parse_summary_fields.
  assert (exists s, for_each summary_step fields [] = Ok s) as [s Hs].
  { revert Hwf. apply for_each_total. intros out f Hf. unfold summary_step.
    destruct (summary_ftype_total f Hf) as (t & -> & Ht).
    destruct (value_text_total f Hf) as (v & ->). simpl.
    destruct (Py.truthy t); [|eauto].
    destruct (hash_text t Ht) as (k & ->). simpl. eauto. }
  destruct fields; simpl in *; eauto.
Qed.

Lemma raw_item_total li : wf_line_item li = true -> exists raw, raw_item li = Ok raw.
Proof.
  destruct li as [| | | | |d]; try discriminate. simpl.
  unfold raw_item, Py.get, Py.dget; simpl.
  assert (forall fields, forallb wf_field fields = true ->
            exists raw, for_each raw_step fields [] = Ok raw) as Hloop.
  { intros fields Hwf%forallb_Forall. revert Hwf.
    apply for_each_total. intros item f Hf. unfold raw_step.
    destruct (line_field_label_total f Hf) as (t & -> & Ht).
    destruct (value_text_total f Hf) as (v & ->). simpl.
    destruct (Py.truthy t); [|eauto].
    destruct (hash_text t Ht) as (k & ->). simpl. eauto. }
  destruct (Py.lookup (KStr "LineItemExpenseFields") d) as [[| | | |fields|]|];
    try discriminate; simpl; eauto.
Qed.

(** On well-shaped groups the line items are always produced, whatever
    members their fields lack. *)
Lemma parse_line_items_total groups :
  forallb wf_group groups = true ->
  exists items, _parse_line_items (PList groups) = Ok items.
Proof.
  intros Hwf%forallb_Forall. unfold _parse_line_items.
  assert (exists its, for_each group_step groups [] = Ok its) as [its Hits].
  { revert Hwf. apply for_each_total. intros items g Hg. unfold group_step, line_items_of.
    destruct g as [| | | | |d]; try discriminate. simpl in *. unfold Py.dget.
    destruct (Py.lookup (KStr "LineItems") d) as [[| | | |lis|]|];
      try discriminate; simpl; [|eauto].
    apply forallb_Forall in Hg. revert Hg.
    apply for_each_total. intros its li Hli. unfold line_item_step.
    destruct (raw_item_total li Hli) as (raw & ->). simpl. eauto. }
  destruct groups; simpl in *; eauto.
Qed.

(** ** The report renderer *)

Lemma resolve_in_order s k1 k2 k3 fallback :
  resolved_in_order s k1 k2 k3 fallback (resolve s k1 k2 k3 fallback).
Proof.
  unfold resolved_in_order, resolve, absent_or_falsy, Py.or_, Py.dget.
  repeat split.
  - intros v -> Hv. rewrite !Hv. by destruct v.
  - intros v H1 -> Hv.
    destruct (Py.lookup (KStr k1) s) as [v1|]; [rewrite H1|]; simpl; rewrite !Hv; by destruct v.
  - intros v H1 H2 -> Hv.
    assert (Py.truthy (match Py.lookup (KStr k1) s with Some x => x | None => PNone end) = false)
      as -> by (by destruct (Py.lookup (KStr k1) s)).
    assert (Py.truthy (match Py.lookup (KStr k2) s with Some x => x | None => PNone end) = false)
      as -> by (by destruct (Py.lookup (KStr k2) s)).
    by destruct v.
  - by intros -> -> ->.
Qed.

(** C7: vendor, date and total are each resolved from their three candidate
    keys in priority order (a key whose value is missing or falsy gives way to
    the next), and when none of the three keys is in the summary the result is
    "Unknown vendor", "Unknown date" or "Unknown total". *)
Theorem C7_render_resolution (summary : dict) :
  resolved_in_order summary "VENDOR_NAME" "RECEIVER_NAME" "SUPPLIER_NAME"
    "Unknown vendor" (vendor_of summary) /\
  resolved_in_order summary "INVOICE_RECEIPT_DATE" "INVOICE_DATE" "RECEIPT_DATE"
    "Unknown date" (date_of summary) /\
  resolved_in_order summary "TOTAL" "AMOUNT_DUE" "INVOICE_TOTAL"
    "Unknown total" (total_of summary).
Proof. repeat split; apply resolve_in_order. Qed.

Lemma C7_render_resolution_witness :
  vendor_of receiver_summary = PStr "Bob" /\
  date_of receiver_summary = PStr "Unknown date" /\
  total_of receiver_summary = PStr "42.00".
Proof.
  destruct (C7_render_resolution receiver_summary)
    as ((_ & Hvendor & _) & (_ & _ & _ & Hdate) & (Htotal & _)).
  split; [|split].
  - apply Hvendor; reflexivity.
  - apply Hdate; reflexivity.
  - apply Htotal; reflexivity.
Defined.

Lemma append_assoc (a b c : string) : (a +:+ b) +:+ c = a +:+ b +:+ c.
Proof.
  induction a as [|x a IH]; [done|].
  change (String x ((a +:+ b) +:+ c) = String x (a +:+ b +:+ c)). by f_equal.
Qed.

Lemma concat_cons_nonempty sep c x xs : String.concat sep (String c x :: xs) <> "".
Proof. destruct xs; simpl; discriminate. Qed.

Lemma str_or_nonempty s fallback : s <> "" -> str_or s fallback = s.
Proof. intros H. unfold str_or. by apply String.eqb_neq in H as ->. Qed.

Lemma take_min {A} n (l : list A) : take (min n (length l)) l = take n l.
Proof.
  destruct (Nat.min_spec n (length l)) as [[_ ->]|[Hle ->]]; [done|].
  by rewrite firstn_all, take_ge.
Qed.

Lemma lines_preview_nonempty py_repr i items :
  lines_preview py_repr (i :: items)
  = String.concat nl (map (text_line py_repr) (take 10 (i :: items))).
Proof. unfold lines_preview. apply str_or_nonempty. simpl. apply concat_cons_nonempty. Qed.

Lemma html_items_nonempty py_repr i items :
  html_items py_repr (i :: items)
  = String.concat "" (map (html_row py_repr) (take 50 (i :: items))).
Proof. unfold html_items. apply str_or_nonempty. simpl. apply concat_cons_nonempty. Qed.

Lemma append_nil_r (a : string) : a +:+ "" = a.
Proof.
  induction a as [|x a IH]; [done|].
  change (String x (a +:+ "") = String x a). by f_equal.
Qed.

Lemma contains_text_trans a b c :
  contains_text a b -> contains_text b c -> contains_text a c.
Proof.
  intros (p1 & q1 & ->) (p2 & q2 & ->).
  exists (p1 +:+ p2), (q2 +:+ q1). by rewrite !append_assoc.
Qed.

Lemma contains_concat sep x l : In x l -> contains_text (String.concat sep l) x.
Proof.
  induction l as [|y l IH]; [done|]. intros [->|Hin].
  - destruct l; simpl.
    + exists "", "". by rewrite append_nil_r.
    + by exists "", (sep +:+ String.concat sep (s :: l)).
  - destruct l as [|z l]; [done|].
    destruct (IH Hin) as (p & q & Hpq).
    exists (y +:+ sep +:+ p), q.
    change (String.concat sep (y :: z :: l)) with (y +:+ sep +:+ String.concat sep (z :: l)).
    by rewrite Hpq, !append_assoc.
Qed.

(** The rows of items whose attributes are strings, spelled with the strings. *)
Lemma text_rows_of_texts py_repr items (texts : list (string * string * string * string)) :
  Forall2 has_texts items texts ->
  map (text_line py_repr) items
  = map (fun '(d, q, p, t) =>
           "- " +:+ d +:+ "  qty=" +:+ q +:+ "  price=" +:+ p +:+ "  total=" +:+ t) texts.
Proof.
  induction 1 as [|i [[[d q] p] t] items texts (Hd & Hq & Hp & Ht) _ IH]; [done|].
  simpl. rewrite IH. f_equal. unfold text_line, Py.dget. by rewrite Hd, Hq, Hp, Ht.
Qed.

Lemma html_rows_of_texts py_repr items (texts : list (string * string * string * string)) :
  Forall2 has_texts items texts ->
  map (html_row py_repr) items
  = map (fun '(d, q, p, t) =>
           "<tr><td>" +:+ d +:+ "</td><td>" +:+ q +:+ "</td><td>" +:+ p
           +:+ "</td><td>" +:+ t +:+ "</td></tr>") texts.
Proof.
  induction 1 as [|i [[[d q] p] t] items texts (Hd & Hq & Hp & Ht) _ IH]; [done|].
  simpl. rewrite IH. f_equal. unfold html_row, Py.dget. by rewrite Hd, Hq, Hp, Ht.
Qed.

(** C8: for a non-empty list of items the plain-text preview is, joined by
    newlines, one line "- D  qty=Q  price=P  total=T" for each of the first
    min(10, length) items, in order, and the HTML table is one row
    "<tr><td>D</td><td>Q</td><td>P</td><td>T</td></tr>" for each of the first
    min(50, length) items, in order, where D, Q, P, T are the item's
    description, quantity, unit price and total as an f-string shows them
    (the strings themselves when they are strings); every attribute of every
    such item occurs in the preview, respectively the table; for the empty
    list both are the "(no line items detected)" fallback; and the text body
    and the HTML body carry the preview and the table. *)
Theorem C8_preview_and_table_limits (py_repr : pyval -> string) (items : list dict) :
  (items <> [] ->
   lines_preview py_repr items
     = String.concat nl
         (map (fun i =>
                 "- " +:+ py_str py_repr (Py.dget i "description" (PStr "?"))
                 +:+ "  qty=" +:+ py_str py_repr (Py.dget i "quantity" (PStr "?"))
                 +:+ "  price=" +:+ py_str py_repr (Py.dget i "unit_price" (PStr "?"))
                 +:+ "  total=" +:+ py_str py_repr (Py.dget i "total" (PStr "?")))
              (take (min 10 (length items)) items)) /\
   html_items py_repr items
     = String.concat ""
         (map (fun i =>
                 "<tr><td>" +:+ py_str py_repr (Py.dget i "description" (PStr ""))
                 +:+ "</td><td>" +:+ py_str py_repr (Py.dget i "quantity" (PStr ""))
                 +:+ "</td><td>" +:+ py_str py_repr (Py.dget i "unit_price" (PStr ""))
                 +:+ "</td><td>" +:+ py_str py_repr (Py.dget i "total" (PStr ""))
                 +:+ "</td></tr>")
              (take (min 50 (length items)) items))) /\
  (forall texts : list (string * string * string * string),
     items <> [] ->
     Forall2 has_texts items texts ->
     lines_preview py_repr items
       = String.concat nl
           (map (fun '(d, q, p, t) =>
                   "- " +:+ d +:+ "  qty=" +:+ q +:+ "  price=" +:+ p +:+ "  total=" +:+ t)
                (take (min 10 (length texts)) texts)) /\
     html_items py_repr items
       = String.concat ""
           (map (fun '(d, q, p, t) =>
                   "<tr><td>" +:+ d +:+ "</td><td>" +:+ q +:+ "</td><td>" +:+ p
                   +:+ "</td><td>" +:+ t +:+ "</td></tr>")
                (take (min 50 (length texts)) texts))) /\
  (forall i k,
     In k ["description"; "quantity"; "unit_price"; "total"] ->
     (In i (take (min 10 (length items)) items) ->
      contains_text (lines_preview py_repr items)
        (py_str py_repr (Py.dget i k (PStr "?")))) /\
     (In i (take (min 50 (length items)) items) ->
      contains_text (html_items py_repr items)
        (py_str py_repr (Py.dget i k (PStr ""))))) /\
  (items = [] ->
   lines_preview py_repr items = "(no line items detected)" /\
   html_items py_repr items = "<tr><td colspan='4'>(no line items detected)</td></tr>") /\
  (forall vendor date total receipt_id bucket key now_iso,
     contains_text
       (text_body py_repr vendor date total items receipt_id bucket key now_iso)
       (lines_preview py_repr items) /\
     contains_text
       (html_body py_repr vendor date total items receipt_id bucket key now_iso)
       (html_items py_repr items)).
Proof.
  assert (items <> [] ->
          lines_preview py_repr items
            = String.concat nl (map (text_line py_repr) (take (min 10 (length items)) items)) /\
          html_items py_repr items
            = String.concat "" (map (html_row py_repr) (take (min 50 (length items)) items)))
    as Hrows.
  { intros Hne. rewrite !take_min.
    destruct items as [|i items]; [done|].
    split; [apply lines_preview_nonempty | apply html_items_nonempty]. }
  split; [exact Hrows|]. split; [|split; [|split]].
  - intros texts Hne Hall. destruct (Hrows Hne) as [-> ->].
    rewrite <- (Forall2_length _ _ _ Hall).
    rewrite (text_rows_of_texts py_repr _ _ (Forall2_take _ _ _ (min 10 (length items)) Hall)).
    by rewrite (html_rows_of_texts py_repr _ _ (Forall2_take _ _ _ (min 50 (length items)) Hall)).
  - intros i k Hk. split; intros Hi.
    + assert (items <> []) as Hne by (intros ->; by destruct Hi).
      destruct (Hrows Hne) as [-> _].
      apply (contains_text_trans _ (text_line py_repr i)).
      * apply contains_concat, in_map, Hi.
      * unfold text_line. simpl in Hk.
        destruct Hk as [<-|[<-|[<-|[<-|[]]]]].
        -- by eexists "- ", _.
        -- eexists ("- " +:+ py_str py_repr (Py.dget i "description" (PStr "?")) +:+ "  qty="), _.
           by rewrite !append_assoc.
        -- eexists ("- " +:+ py_str py_repr (Py.dget i "description" (PStr "?"))
                    +:+ "  qty=" +:+ py_str py_repr (Py.dget i "quantity" (PStr "?"))
                    +:+ "  price="), _.
           by rewrite !append_assoc.
        -- exists ("- " +:+ py_str py_repr (Py.dget i "description" (PStr "?"))
                   +:+ "  qty=" +:+ py_str py_repr (Py.dget i "quantity" (PStr "?"))
                   +:+ "  price=" +:+ py_str py_repr (Py.dget i "unit_price" (PStr "?"))
                   +:+ "  total="), "".
           by rewrite !append_assoc, append_nil_r.
    + assert (items <> []) as Hne by (intros ->; by destruct Hi).
      destruct (Hrows Hne) as [_ ->].
      apply (contains_text_trans _ (html_row py_repr i)).
      * apply contains_concat, in_map, Hi.
      * unfold html_row. simpl in Hk.
        destruct Hk as [<-|[<-|[<-|[<-|[]]]]].
        -- by eexists "<tr><td>", _.
        -- eexists ("<tr><td>" +:+ py_str py_repr (Py.dget i "description" (PStr ""))
                    +:+ "</td><td>"), _.
           by rewrite !append_assoc.
        -- eexists ("<tr><td>" +:+ py_str py_repr (Py.dget i "description" (PStr ""))
                    +:+ "</td><td>" +:+ py_str py_repr (Py.dget i "quantity" (PStr ""))
                    +:+ "</td><td>"), _.
           by rewrite !append_assoc.
        -- eexists ("<tr><td>" +:+ py_str py_repr (Py.dget i "description" (PStr ""))
                    +:+ "</td><td>" +:+ py_str py_repr (Py.dget i "quantity" (PStr ""))
                    +:+ "</td><td>" +:+ py_str py_repr (Py.dget i "unit_price" (PStr ""))
                    +:+ "</td><td>"), _.
           by rewrite !append_assoc.
  - by intros ->.
  - intros vendor date total receipt_id bucket key now_iso. split.
    + eexists (nl +:+ "Your receipt has been processed." +:+ nl +:+ nl
               +:+ "Vendor: " +:+ py_str py_repr vendor +:+ nl
               +:+ "Date:   " +:+ py_str py_repr date +:+ nl
               +:+ "Total:  " +:+ py_str py_repr total +:+ nl +:+ nl
               +:+ "Top line items:" +:+ nl), _.
      unfold text_body. rewrite !append_assoc. reflexivity.
    + eexists ("<html><body>" +:+ nl
               +:+ "<h2>Receipt processed</h2>" +:+ nl
               +:+ "<p><strong>Vendor</strong>: " +:+ py_str py_repr vendor +:+ "<br/>" +:+ nl
               +:+ "<strong>Date</strong>: " +:+ py_str py_repr date +:+ "<br/>" +:+ nl
               +:+ "<strong>Total</strong>: " +:+ py_str py_repr total +:+ "</p>" +:+ nl
               +:+ "<table border=" +:+ dq +:+ "1" +:+ dq +:+ " cellspacing=" +:+ dq +:+ "0" +:+ dq
               +:+ " cellpadding=" +:+ dq +:+ "6" +:+ dq +:+ ">" +:+ nl
               +:+ "<thead><tr><th>Description</th><th>Qty</th><th>Unit Price</th><th>Line Total</th></tr></thead>" +:+ nl
               +:+ "<tbody>"), _.
      unfold html_body. rewrite !append_assoc. reflexivity.
Qed.

Lemma numbered_items_texts ns :
  Forall2 has_texts (map numbered_item ns) (map numbered_texts ns).
Proof. induction ns as [|n ns IH]; constructor; [by repeat split | exact IH]. Qed.

Lemma C8_preview_and_table_limits_witness :
  lines_preview no_repr fifty_two_items
    = String.concat nl
        [ "- item 1  qty=1  price=1.50  total=1.00";
          "- item 2  qty=2  price=2.50  total=4.00";
          "- item 3  qty=3  price=3.50  total=9.00";
          "- item 4  qty=4  price=4.50  total=16.00";
          "- item 5  qty=5  price=5.50  total=25.00";
          "- item 6  qty=6  price=6.50  total=36.00";
          "- item 7  qty=7  price=7.50  total=49.00";
          "- item 8  qty=8  price=8.50  total=64.00";
          "- item 9  qty=9  price=9.50  total=81.00";
          "- item 10  qty=10  price=10.50  total=100.00" ] /\
  html_items no_repr fifty_two_items
    = String.concat ""
        (map (fun n =>
                "<tr><td>item " +:+ pretty n +:+ "</td><td>" +:+ pretty n
                +:+ "</td><td>" +:+ pretty n +:+ ".50</td><td>" +:+ pretty (n * n)%Z
                +:+ ".00</td></tr>")
             (numbers 50)) /\
  html_items no_repr (take 2 fifty_two_items)
    = "<tr><td>item 1</td><td>1</td><td>1.50</td><td>1.00</td></tr>"
      +:+ "<tr><td>item 2</td><td>2</td><td>2.50</td><td>4.00</td></tr>" /\
  lines_preview no_repr [] = "(no line items detected)".
Proof.
  destruct (C8_preview_and_table_limits no_repr fifty_two_items)
    as (_ & Htexts & _ & _ & _).
  destruct (Htexts (map numbered_texts (numbers 52))) as [Htext Hhtml];
    [discriminate | apply numbered_items_texts |].
  destruct (C8_preview_and_table_limits no_repr (take 2 fifty_two_items))
    as (_ & Htexts2 & _ & _ & _).
  destruct (Htexts2 (map numbered_texts (numbers 2))) as [_ Hhtml2];
    [discriminate | apply (numbered_items_texts (numbers 2)) |].
  destruct (C8_preview_and_table_limits no_repr []) as (_ & _ & _ & Hnone & _).
  destruct Hnone as [Hempty _]; [reflexivity|].
  split; [exact Htext|]. split; [|split; [exact Hhtml2 | exact Hempty]].
  rewrite Hhtml. vm_compute. reflexivity.
Defined.

(** ** The handler *)

Lemma iobind_assoc {A B C} (m : io A) (f : A -> io B) (g : B -> io C) :
  (b <~ (a <~ m ;; f a) ;; g b) = (a <~ m ;; b <~ f a ;; g b).
Proof.
  unfold iobind. destruct m as [t [a|e]]; simpl; [|reflexivity].
  destruct (f a) as [t' [b|e]]; simpl; [|reflexivity].
  by rewrite app_assoc.
Qed.

Lemma iobind_ret_l {A B} (a : A) (k : A -> io B) : (x <~ ret a ;; k x) = k a.
Proof. unfold iobind; simpl. by destruct (k a). Qed.

Lemma iobind_ext {A B} (m : io A) (f g : A -> io B) :
  (forall a, f a = g a) -> (a <~ m ;; f a) = (a <~ m ;; g a).
Proof. intros H. unfold iobind. destruct (outcome m); [by rewrite H | reflexivity]. Qed.

Lemma handler_split py_repr w event :
  handler py_repr w event = (p <~ prepare w event ;; finish py_repr w p).
Proof.
  unfold handler, prepare.
  rewrite iobind_assoc. apply iobind_ext. intros _.
  rewrite iobind_assoc. apply iobind_ext. intros bk.
  rewrite iobind_assoc. apply iobind_ext. intros tx.
  rewrite iobind_assoc. apply iobind_ext. intros n.
  rewrite iobind_assoc. apply iobind_ext. intros doc_count.
  by rewrite iobind_ret_l.
Qed.

Lemma normalize_quiet tx : Forall quiet (trace (normalize tx)).
Proof.
  unfold normalize, iobind, lift; simpl.
  destruct (Py.get tx "ExpenseDocuments" (PList [])) as [docs|]; simpl; [|constructor].
  destruct (Py.truthy docs); simpl; [|repeat constructor].
  destruct (Py.getitem0 docs) as [doc|]; simpl; [|constructor].
  destruct (Py.get doc "SummaryFields" (PList [])) as [sf|]; simpl; [|constructor].
  destruct (_parse_summary_fields sf); simpl; [|constructor].
  destruct (Py.get doc "LineItemGroups" (PList [])) as [groups|]; simpl; [|constructor].
  destruct (_parse_line_items groups); simpl; constructor.
Qed.

Lemma prepare_quiet w event : Forall quiet (trace (prepare w event)).
Proof.
  unfold prepare, iobind at 1; simpl. constructor; [exact I|].
  unfold iobind at 1; simpl.
  destruct (adapt_trigger event) as [[bucket key]|]; simpl; [|constructor].
  unfold iobind at 1, try_except, call_analyze_expense; simpl.
  destruct (analyze_expense w bucket key) as [tx|e]; simpl.
  - constructor; [exact I|].
    unfold iobind at 1. pose proof (normalize_quiet tx) as Hn.
    destruct (normalize tx) as [tn [n|]]; simpl in *; [|exact Hn].
    apply Forall_app. split; [exact Hn|].
    unfold iobind, lift; simpl. destruct (Py.len n.1.1); simpl; constructor.
  - destruct (is_ClientError e); simpl; repeat constructor.
Qed.

(** What the second half does, by the answers of the two services. *)
Lemma finish_cases py_repr w p :
  finish py_repr w p =
  let record := record_of w p in
  let message := email_of py_repr w p in
  let done := success (uuid4 w) (p_summary p) (p_items p) in
  match put_item w record with
  | Raise e => IO [EPutItem record] (Raise e)
  | Ok _ =>
      match send_email w message with
      | Ok _ =>
          IO [EPutItem record; ESendEmail message;
              ELog INFO "SES email sent to %s" [PStr (SES_RECIPIENT w)]] (Ok done)
      | Raise e =>
          if is_ClientError e
          then IO [EPutItem record; ESendEmail message;
                   ELog ERROR "Failed to send SES email. Is the identity verified / out of sandbox?" []]
                  (Ok done)
          else IO [EPutItem record; ESendEmail message] (Raise e)
      end
  end.
Proof.
  unfold finish, iobind, try_except, call_put_item, call_send_email; simpl.
  destruct (put_item w (record_of w p)); simpl; [|reflexivity].
  destruct (send_email w (email_of py_repr w p)) as [|e]; simpl; [reflexivity|].
  destruct (is_ClientError e); reflexivity.
Qed.

Lemma quiet_not_put record t : Forall quiet t -> ~ In (EPutItem record) t.
Proof. intros Ht Hin. by apply (proj1 (List.Forall_forall _ _) Ht) in Hin. Qed.

Lemma quiet_not_send m t : Forall quiet t -> ~ In (ESendEmail m) t.
Proof. intros Ht Hin. by apply (proj1 (List.Forall_forall _ _) Ht) in Hin. Qed.

(** A write in the trace means the first half succeeded and built it. *)
Lemma handler_put_inv py_repr w event record :
  In (EPutItem record) (trace (handler py_repr w event)) ->
  exists p,
    outcome (prepare w event) = Ok p /\ record = record_of w p /\
    trace (handler py_repr w event) = trace (prepare w event) ++ trace (finish py_repr w p) /\
    outcome (handler py_repr w event) = outcome (finish py_repr w p).
Proof.
  rewrite handler_split. unfold iobind.
  pose proof (prepare_quiet w event) as Hq.
  destruct (prepare w event) as [tp [p|e]]; simpl in *.
  - intros Hin. exists p. split; [done|]. split; [|done].
    apply in_app_or in Hin as [Hin|Hin]; [by apply quiet_not_put in Hin|].
    rewrite finish_cases in Hin. simpl in Hin.
    destruct (put_item w (record_of w p)); [destruct (send_email w _) as [|e]; [|destruct (is_ClientError e)]|];
      simpl in Hin; intuition congruence.
  - intros Hin. by apply quiet_not_put in Hin.
Qed.

(** A send in the trace means the write before it succeeded. *)
Lemma handler_send_inv py_repr w event m :
  In (ESendEmail m) (trace (handler py_repr w event)) ->
  exists p,
    outcome (prepare w event) = Ok p /\ m = email_of py_repr w p /\
    put_item w (record_of w p) = Ok tt /\
    In (EPutItem (record_of w p)) (trace (handler py_repr w event)) /\
    outcome (handler py_repr w event) = outcome (finish py_repr w p).
Proof.
  rewrite handler_split. unfold iobind.
  pose proof (prepare_quiet w event) as Hq.
  destruct (prepare w event) as [tp [p|e]]; simpl in *.
  - intros Hin. exists p. split; [done|].
    apply in_app_or in Hin as [Hin|Hin]; [by apply quiet_not_send in Hin|].
    rewrite finish_cases in *. simpl in *.
    destruct (put_item w (record_of w p)) as [[]|]; simpl in Hin; [|intuition congruence].
    assert (m = email_of py_repr w p) as ->.
    { destruct (send_email w _) as [|e]; [|destruct (is_ClientError e)];
        simpl in Hin; intuition congruence. }
    repeat split; try done.
    apply in_or_app. right.
    destruct (send_email w _) as [|e]; [|destruct (is_ClientError e)]; simpl; auto.
  - intros Hin. by apply quiet_not_send in Hin.
Qed.

(** C2: when the DynamoDB write raises, the handler raises the same exception,
    the write is the last effect of the invocation, only logging and the
    Textract call came before it, and no mail is ever sent. *)
Theorem C2_persistence_failure_aborts py_repr w event record e :
  In (EPutItem record) (trace (handler py_repr w event)) ->
  put_item w record = Raise e ->
  outcome (handler py_repr w event) = Raise e /\
  (exists before,
     trace (handler py_repr w event) = before ++ [EPutItem record] /\
     Forall quiet before) /\
  (forall m, ~ In (ESendEmail m) (trace (handler py_repr w event))).
Proof.
  intros Hin Hput.
  destruct (handler_put_inv _ _ _ _ Hin) as (p & _ & -> & Htrace & Hout).
  pose proof (prepare_quiet w event) as Hq.
  revert Htrace Hq. generalize (trace (prepare w event)). intros before Htrace Hq.
  rewrite Htrace, Hout, finish_cases; simpl. rewrite Hput; simpl.
  split; [reflexivity|]. split; [by exists before|].
  intros m Hm. apply in_app_or in Hm as [Hm|Hm].
  - by apply quiet_not_send in Hm.
  - simpl in Hm. intuition congruence.
Qed.

Lemma C2_persistence_failure_aborts_witness :
  let w := sample_world one_document (Raise (ClientError "ProvisionedThroughputExceededException")) (Ok tt) in
  let h := handler no_repr w (manual_event "b" "k") in
  outcome h = Raise (ClientError "ProvisionedThroughputExceededException") /\
  (exists before,
     trace h = before ++ [EPutItem (record_of w (Prepared (PStr "b") (PStr "k")
                                       [(KStr "TOTAL", PStr "42.00")] [] 1))] /\
     Forall quiet before) /\
  (forall m, ~ In (ESendEmail m) (trace h)).
Proof.
  intros w h.
  apply (C2_persistence_failure_aborts no_repr w (manual_event "b" "k")).
  - simpl. right. right. left. reflexivity.
  - reflexivity.
Defined.

(** C3, as the code has it: when [send_email] raises a [ClientError] the
    handler still returns the success output, whose receipt id is the one of
    the record that was written. *)
Theorem C3_client_error_on_send_suppressed py_repr w event m code :
  In (ESendEmail m) (trace (handler py_repr w event)) ->
  send_email w m = Raise (ClientError code) ->
  exists bucket key summary items doc_count,
    let record :=
      build_record (uuid4 w) bucket key (now_iso_of w) summary items doc_count in
    In (EPutItem record) (trace (handler py_repr w event)) /\
    put_item w record = Ok tt /\
    outcome (handler py_repr w event) =
      Ok (PDict [ (KStr "status", PStr "ok");
                  (KStr "receipt_id", PStr (uuid4 w));
                  (KStr "summary", PDict summary);
                  (KStr "line_items_count", PInt (Z.of_nat (length items))) ]).
Proof.
  intros Hin Hsend.
  destruct (handler_send_inv _ _ _ _ Hin) as (p & _ & -> & Hput & Hrec & Hout).
  exists (p_bucket p), (p_key p), (p_summary p), (p_items p), (p_doc_count p).
  intros record. split; [exact Hrec|]. split; [exact Hput|].
  rewrite Hout, finish_cases. cbv zeta. by rewrite Hput, Hsend.
Qed.

Lemma C3_client_error_on_send_suppressed_witness :
  let w := sample_world one_document (Ok tt) (Raise (ClientError "MessageRejected")) in
  exists bucket key summary items doc_count,
    let record :=
      build_record (uuid4 w) bucket key (now_iso_of w) summary items doc_count in
    In (EPutItem record) (trace (handler no_repr w (manual_event "b" "k"))) /\
    put_item w record = Ok tt /\
    outcome (handler no_repr w (manual_event "b" "k")) =
      Ok (PDict [ (KStr "status", PStr "ok");
                  (KStr "receipt_id", PStr (uuid4 w));
                  (KStr "summary", PDict summary);
                  (KStr "line_items_count", PInt (Z.of_nat (length items))) ]).
Proof.
  intros w.
  eapply (C3_client_error_on_send_suppressed no_repr w (manual_event "b" "k")).
  - simpl. right. right. right. left. reflexivity.
  - reflexivity.
Defined.

(** C3, as stated, fails: the write succeeded, [send_email] raised an
    exception that is not a [ClientError], and the handler raised it. *)
Lemma C3_counterexample :
  let w := sample_world one_document (Ok tt) (Raise (OtherError "EndpointConnectionError")) in
  let h := handler no_repr w (manual_event "b" "k") in
  (exists record, In (EPutItem record) (trace h) /\ put_item w record = Ok tt) /\
  (exists m, In (ESendEmail m) (trace h) /\
             send_email w m = Raise (OtherError "EndpointConnectionError")) /\
  outcome h = Raise (OtherError "EndpointConnectionError").
Proof.
  intros w h. split; [|split].
  - eexists. split; [|reflexivity]. simpl. right. right. left. reflexivity.
  - eexists. split; [|reflexivity]. simpl. right. right. right. left. reflexivity.
  - reflexivity.
Qed.

(** C10: an exception of [send_email] is swallowed exactly when it is a
    [ClientError]; any other one becomes the outcome of the handler, although
    the record was written. *)
Theorem C10_only_client_errors_suppressed py_repr w event m e :
  In (ESendEmail m) (trace (handler py_repr w event)) ->
  send_email w m = Raise e ->
  (exists record,
     In (EPutItem record) (trace (handler py_repr w event)) /\
     put_item w record = Ok tt) /\
  (is_ClientError e = true -> exists out, outcome (handler py_repr w event) = Ok out) /\
  (is_ClientError e = false -> outcome (handler py_repr w event) = Raise e).
Proof.
  intros Hin Hsend.
  destruct (handler_send_inv _ _ _ _ Hin) as (p & _ & -> & Hput & Hrec & Hout).
  split; [eauto|].
  rewrite Hout, finish_cases. cbv zeta. rewrite Hput, Hsend.
  split; intros ->; eauto.
Qed.

Lemma C10_only_client_errors_suppressed_witness :
  let w := sample_world one_document (Ok tt) (Raise (OtherError "ParamValidationError")) in
  let h := handler no_repr w (s3_event "b" "k") in
  (exists record, In (EPutItem record) (trace h) /\ put_item w record = Ok tt) /\
  outcome h = Raise (OtherError "ParamValidationError").
Proof.
  intros w h.
  destruct (C10_only_client_errors_suppressed no_repr w (s3_event "b" "k")
              (email_of no_repr w (Prepared (PStr "b") (PStr "k")
                                     [(KStr "TOTAL", PStr "42.00")] [] 1))
              (OtherError "ParamValidationError")) as (Hput & _ & Hraise).
  - simpl. right. right. right. left. reflexivity.
  - reflexivity.
  - split; [exact Hput | apply Hraise; reflexivity].
Defined.

Lemma prepare_no_documents w event bucket key tx :
  adapt_trigger event = Ok (bucket, key) ->
  analyze_expense w bucket key = Ok tx ->
  Py.get tx "ExpenseDocuments" (PList []) = Ok (PList []) ->
  prepare w event =
  IO [ ELog INFO "Received event: %s" [event];
       EAnalyzeExpense bucket key;
       ELog WARNING "No ExpenseDocuments returned by Textract" [] ]
     (Ok (Prepared bucket key [] [] 0)).
Proof.
  intros Hadapt Htx Hdocs.
  unfold prepare, iobind, try_except, call_analyze_expense, normalize, lift; simpl.
  rewrite Hadapt; simpl. rewrite Htx; simpl. rewrite Hdocs; simpl. reflexivity.
Qed.

(** C9: when Textract returns no expense document, the summary and the list of
    line items are empty, the record is written all the same, and the handler
    returns the success output as long as the write succeeds and the mail
    raises nothing but a [ClientError]. *)
Theorem C9_no_documents py_repr w event bucket key tx :
  adapt_trigger event = Ok (bucket, key) ->
  analyze_expense w bucket key = Ok tx ->
  Py.get tx "ExpenseDocuments" (PList []) = Ok (PList []) ->
  let record := build_record (uuid4 w) bucket key (now_iso_of w) [] [] 0 in
  let message := build_email py_repr w [] [] (uuid4 w) bucket key (now_iso_of w) in
  outcome (normalize tx) = Ok (PList [], [], []) /\
  In (EPutItem record) (trace (handler py_repr w event)) /\
  (put_item w record = Ok tt ->
   (forall e, send_email w message = Raise e -> is_ClientError e = true) ->
   outcome (handler py_repr w event) = Ok (success (uuid4 w) [] [])).
Proof.
  intros Hadapt Htx Hdocs record message.
  split; [|split].
  - unfold normalize, iobind, lift; simpl. by rewrite Hdocs.
  - rewrite handler_split, (prepare_no_documents _ _ _ _ _ Hadapt Htx Hdocs).
    unfold iobind; cbn [outcome trace]. rewrite finish_cases. cbv zeta.
    apply in_or_app. right.
    change (record_of w (Prepared bucket key [] [] 0)) with record.
    destruct (put_item w record); [|by left].
    destruct (send_email w _) as [|e]; [by left|].
    destruct (is_ClientError e); by left.
  - intros Hput Hsend.
    rewrite handler_split, (prepare_no_documents _ _ _ _ _ Hadapt Htx Hdocs).
    unfold iobind; cbn [outcome trace]. rewrite finish_cases. cbv zeta.
    change (record_of w (Prepared bucket key [] [] 0)) with record.
    change (email_of py_repr w (Prepared bucket key [] [] 0)) with message.
    rewrite Hput.
    destruct (send_email w message) as [|e] eqn:E; [reflexivity|].
    by rewrite (Hsend e eq_refl).
Qed.

Lemma C9_no_documents_witness :
  let w := sample_world no_documents (Ok tt) (Ok tt) in
  let event := manual_event "b" "k" in
  outcome (normalize no_documents) = Ok (PList [], [], []) /\
  In (EPutItem (build_record (uuid4 w) (PStr "b") (PStr "k") (now_iso_of w) [] [] 0))
     (trace (handler no_repr w event)) /\
  outcome (handler no_repr w event) = Ok (success (uuid4 w) [] []).
Proof.
  intros w event.
  destruct (C9_no_documents no_repr w event (PStr "b") (PStr "k") no_documents
              eq_refl eq_refl eq_refl) as (Hnorm & Hput & Hout).
  split; [exact Hnorm|]. split; [exact Hput|].
  apply Hout; [reflexivity | discriminate].
Defined.

Lemma adapt_trigger_manual_rejects d c :
  is_s3_event (PDict d) = Ok c ->
  Py.truthy c = false ->
  yields_ids (manual_shape (PDict d)) = false ->
  adapt_trigger (PDict d) = Raise (ValueError manual_hint).
Proof.
  intros Hs3 Hc Hids. unfold adapt_trigger. rewrite Hs3; simpl. rewrite Hc.
  unfold Py.dget. simpl in Hids.
  destruct (Py.lookup (KStr "bucket") d) as [bucket|]; [|reflexivity].
  destruct (Py.lookup (KStr "key") d) as [key|]; simpl.
  - apply andb_false_iff in Hids as [->| ->]; simpl; [reflexivity|].
    by rewrite orb_true_r.
  - by rewrite orb_true_r.
Qed.

(** C4, as the code has it: a payload that is a JSON object, on which the
    storage-event test of line 64 is false, and whose top-level bucket or key
    is missing or empty, makes the handler raise [ValueError] after nothing
    but the log of the event. *)
Theorem C4_manual_payload_without_ids py_repr w d c :
  is_s3_event (PDict d) = Ok c ->
  Py.truthy c = false ->
  yields_ids (manual_shape (PDict d)) = false ->
  handler py_repr w (PDict d) =
  IO [ELog INFO "Received event: %s" [PDict d]] (Raise (ValueError manual_hint)).
Proof.
  intros Hs3 Hc Hids. unfold handler, iobind, lift; simpl.
  by rewrite (adapt_trigger_manual_rejects d c Hs3 Hc Hids).
Qed.

Lemma C4_manual_payload_without_ids_witness :
  let w := sample_world one_document (Ok tt) (Ok tt) in
  handler no_repr w (manual_event "b" "") =
  IO [ELog INFO "Received event: %s" [manual_event "b" ""]]
     (Raise (ValueError manual_hint)).
Proof.
  intros w.
  apply (C4_manual_payload_without_ids no_repr w
           [ (KStr "bucket", PStr "b"); (KStr "key", PStr "") ] (PBool false));
    reflexivity.
Defined.

(** C4, as stated, fails: the first record of a storage event names an empty
    bucket, so neither shape yields a non-empty bucket and key, yet the
    handler calls Textract with the empty bucket and goes on to succeed. *)
Lemma C4_counterexample :
  let w := sample_world no_documents (Ok tt) (Ok tt) in
  let event := s3_event "" "receipt.png" in
  yields_ids (storage_shape event) = false /\
  yields_ids (manual_shape event) = false /\
  adapt_trigger event = Ok (PStr "", PStr "receipt.png") /\
  In (EAnalyzeExpense (PStr "") (PStr "receipt.png")) (trace (handler no_repr w event)) /\
  outcome (handler no_repr w event) = Ok (success (uuid4 w) [] []).
Proof.
  intros w event. repeat split; try reflexivity.
  simpl. right. left. reflexivity.
Qed.

(** * Further properties *)

(** ** The trigger adapter *)

(** X1: whatever exception reading the payload raises, the handler raises it
    after the log of the event and calls no service. *)
Theorem X1_trigger_error_calls_nothing py_repr w event e :
  adapt_trigger event = Raise e ->
  handler py_repr w event = IO [ELog INFO "Received event: %s" [event]] (Raise e).
Proof.
  intros H. unfold handler, iobind, lift; simpl. by rewrite H.
Qed.

Lemma X1_trigger_error_calls_nothing_witness :
  handler no_repr (sample_world one_document (Ok tt) (Ok tt)) keyless_event =
  IO [ELog INFO "Received event: %s" [keyless_event]] (Raise KeyError).
Proof.
  apply (X1_trigger_error_calls_nothing no_repr _ keyless_event KeyError).
  reflexivity.
Defined.

(** X2: when the first record of the payload has the storage-event shape,
    its bucket name and object key are the result, whatever they are and
    whatever else the payload carries (further records, top-level bucket and
    key). *)
Theorem X2_storage_event_takes_precedence event bucket key :
  storage_shape event = Some (bucket, key) ->
  adapt_trigger event = Ok (bucket, key).
Proof.
  unfold storage_shape. intros H.
  destruct event as [| | | | |d]; try discriminate.
  destruct (Py.lookup (KStr "Records") d) as [[| | | |[|[| | | | |r0] rest]|]|] eqn:Er;
    try discriminate.
  destruct (Py.lookup (KStr "s3") r0) as [[| | | | |s3]|] eqn:Es; try discriminate.
  destruct (Py.lookup (KStr "bucket") s3) as [[| | | | |b]|] eqn:Eb; try discriminate.
  destruct (Py.lookup (KStr "object") s3) as [[| | | | |o]|] eqn:Eo; try discriminate.
  destruct (Py.lookup (KStr "name") b) as [n|] eqn:En; try discriminate.
  destruct (Py.lookup (KStr "key") o) as [k|] eqn:Ek; try discriminate.
  injection H as <- <-.
  assert (Py.truthy (PDict s3) = true) as Hs3 by (by destruct s3).
  unfold adapt_trigger, is_s3_event, Py.contains, Py.getitem, Py.get, Py.dget.
  repeat (rewrite ?Er, ?Es, ?Hs3, ?Eb, ?En, ?Eo, ?Ek; cbn [rbind Py.truthy Py.getitem0]).
  reflexivity.
Qed.

Lemma X2_storage_event_takes_precedence_witness :
  adapt_trigger mixed_event = Ok (PStr "b", PStr "k").
Proof.
  apply (X2_storage_event_takes_precedence mixed_event (PStr "b") (PStr "k")).
  reflexivity.
Defined.

(** X3: on a JSON object that fails the storage-event test, the result is the
    top-level bucket and key exactly when both are there and truthy, and
    [ValueError] otherwise. *)
Theorem X3_manual_payload d c :
  is_s3_event (PDict d) = Ok c ->
  Py.truthy c = false ->
  adapt_trigger (PDict d) =
  match manual_shape (PDict d) with
  | Some (bucket, key) =>
      if Py.truthy bucket && Py.truthy key
      then Ok (bucket, key)
      else Raise (ValueError manual_hint)
  | None => Raise (ValueError manual_hint)
  end.
Proof.
  intros Hs3 Hc. unfold adapt_trigger. rewrite Hs3; simpl. rewrite Hc.
  unfold Py.dget; simpl.
  destruct (Py.lookup (KStr "bucket") d) as [bucket|]; simpl.
  - destruct (Py.lookup (KStr "key") d) as [key|]; simpl.
    + by destruct (Py.truthy bucket), (Py.truthy key).
    + by rewrite orb_true_r.
  - by destruct (Py.lookup (KStr "key") d).
Qed.

Lemma X3_manual_payload_witness :
  adapt_trigger (manual_event "b" "k") = Ok (PStr "b", PStr "k") /\
  adapt_trigger (PDict [(KStr "Records", PList []); (KStr "bucket", PStr "b")])
    = Raise (ValueError manual_hint).
Proof.
  split.
  - apply (X3_manual_payload [(KStr "bucket", PStr "b"); (KStr "key", PStr "k")]
             (PBool false)); reflexivity.
  - apply (X3_manual_payload [(KStr "Records", PList []); (KStr "bucket", PStr "b")]
             (PList [])); reflexivity.
Defined.

(** ** Failure of the Textract call *)

(** X4: when [analyze_expense] raises, the handler raises the same exception
    without writing a record or sending a mail; the failure is logged only
    when the exception is a [ClientError]. *)
Theorem X4_textract_failure_aborts py_repr w event bucket key e :
  adapt_trigger event = Ok (bucket, key) ->
  analyze_expense w bucket key = Raise e ->
  handler py_repr w event =
  IO ([ ELog INFO "Received event: %s" [event]; EAnalyzeExpense bucket key ]
      ++ (if is_ClientError e
          then [ELog ERROR "Textract analyze_expense failed" []]
          else []))
     (Raise e).
Proof.
  intros Hadapt Htx.
  unfold handler, iobind, lift, try_except, call_analyze_expense; simpl.
  rewrite Hadapt; simpl. rewrite Htx; simpl.
  destruct (is_ClientError e); reflexivity.
Qed.

Lemma X4_textract_failure_aborts_witness :
  handler no_repr (failing_textract_world (ClientError "InvalidS3ObjectException"))
    (manual_event "b" "k") =
  IO [ ELog INFO "Received event: %s" [manual_event "b" "k"];
       EAnalyzeExpense (PStr "b") (PStr "k");
       ELog ERROR "Textract analyze_expense failed" [] ]
     (Raise (ClientError "InvalidS3ObjectException")) /\
  handler no_repr (failing_textract_world (OtherError "ReadTimeoutError"))
    (manual_event "b" "k") =
  IO [ ELog INFO "Received event: %s" [manual_event "b" "k"];
       EAnalyzeExpense (PStr "b") (PStr "k") ]
     (Raise (OtherError "ReadTimeoutError")).
Proof.
  split.
  - exact (X4_textract_failure_aborts no_repr
             (failing_textract_world (ClientError "InvalidS3ObjectException"))
             (manual_event "b" "k") (PStr "b") (PStr "k")
             (ClientError "InvalidS3ObjectException") eq_refl eq_refl).
  - exact (X4_textract_failure_aborts no_repr
             (failing_textract_world (OtherError "ReadTimeoutError"))
             (manual_event "b" "k") (PStr "b") (PStr "k")
             (OtherError "ReadTimeoutError") eq_refl eq_refl).
Defined.

(** ** Normalization of the response *)

(** X5: only the first expense document is read: two responses whose lists
    of documents start with the same document leave the same trace and give
    the same summary and line items, or raise the same exception. *)
Theorem X5_only_first_document tx1 tx2 doc rest1 rest2 :
  Py.get tx1 "ExpenseDocuments" (PList []) = Ok (PList (doc :: rest1)) ->
  Py.get tx2 "ExpenseDocuments" (PList []) = Ok (PList (doc :: rest2)) ->
  trace (normalize tx1) = trace (normalize tx2) /\
  match outcome (normalize tx1), outcome (normalize tx2) with
  | Ok n1, Ok n2 => snd (fst n1) = snd (fst n2) /\ snd n1 = snd n2
  | Raise e1, Raise e2 => e1 = e2
  | _, _ => False
  end.
Proof.
  intros H1 H2. unfold normalize, iobind, lift; simpl.
  rewrite H1, H2; simpl.
  destruct (Py.get doc "SummaryFields" (PList [])) as [sf|]; simpl; [|done].
  destruct (_parse_summary_fields sf); simpl; [|done].
  destruct (Py.get doc "LineItemGroups" (PList [])) as [groups|]; simpl; [|done].
  destruct (_parse_line_items groups); simpl; done.
Qed.

Lemma X5_only_first_document_witness :
  trace (normalize (documents [full_document; PNone]))
    = trace (normalize (documents [full_document])) /\
  match outcome (normalize (documents [full_document; PNone])),
        outcome (normalize (documents [full_document])) with
  | Ok n1, Ok n2 => snd (fst n1) = snd (fst n2) /\ snd n1 = snd n2
  | Raise e1, Raise e2 => e1 = e2
  | _, _ => False
  end.
Proof.
  apply (X5_only_first_document _ _ full_document [PNone] []); reflexivity.
Defined.

(** X6: a response whose "ExpenseDocuments" member is there but null (or
    [False], or 0) passes the emptiness test, is logged as empty, and then
    makes the handler raise [TypeError] at [len(expense_docs)], before any
    record is written. *)
Theorem X6_null_document_list py_repr w event bucket key tx docs :
  adapt_trigger event = Ok (bucket, key) ->
  analyze_expense w bucket key = Ok tx ->
  Py.get tx "ExpenseDocuments" (PList []) = Ok docs ->
  docs = PNone \/ docs = PBool false \/ docs = PInt 0 ->
  handler py_repr w event =
  IO [ ELog INFO "Received event: %s" [event];
       EAnalyzeExpense bucket key;
       ELog WARNING "No ExpenseDocuments returned by Textract" [] ]
     (Raise TypeError).
Proof.
  intros Hadapt Htx Hdocs Hnull.
  unfold handler, iobind, lift, try_except, call_analyze_expense, normalize; simpl.
  rewrite Hadapt; simpl. rewrite Htx; simpl. rewrite Hdocs; simpl.
  by destruct Hnull as [-> | [-> | ->]].
Qed.

Lemma X6_null_document_list_witness :
  handler no_repr
    (sample_world (PDict [(KStr "ExpenseDocuments", PNone)]) (Ok tt) (Ok tt))
    (manual_event "b" "k") =
  IO [ ELog INFO "Received event: %s" [manual_event "b" "k"];
       EAnalyzeExpense (PStr "b") (PStr "k");
       ELog WARNING "No ExpenseDocuments returned by Textract" [] ]
     (Raise TypeError).
Proof.
  apply (X6_null_document_list no_repr _ (manual_event "b" "k") (PStr "b") (PStr "k")
           (PDict [(KStr "ExpenseDocuments", PNone)]) PNone);
    [reflexivity | reflexivity | reflexivity | by left].
Defined.

(** X7: a well-shaped first document is always normalized: no member that a
    field, a line item or a group lacks makes [normalize] raise, and it logs
    nothing. *)
Theorem X7_wellformed_document_normalizes tx doc rest :
  Py.get tx "ExpenseDocuments" (PList []) = Ok (PList (doc :: rest)) ->
  wf_document doc = true ->
  exists summary items,
    normalize tx = IO [] (Ok (PList (doc :: rest), summary, items)).
Proof.
  intros Hdocs Hwf. unfold normalize, iobind, lift; simpl. rewrite Hdocs; simpl.
  destruct doc as [| | | | |d]; try discriminate. simpl in *.
  apply andb_true_iff in Hwf as [Hsf Hgroups]. unfold Py.dget.
  assert (exists summary,
            _parse_summary_fields
              (match Py.lookup (KStr "SummaryFields") d with
               | Some v => v
               | None => PList []
               end) = Ok summary) as [summary ->].
  { destruct (Py.lookup (KStr "SummaryFields") d) as [[| | | |fields|]|];
      try discriminate; [by apply parse_summary_fields_total | by exists []]. }
  assert (exists items,
            _parse_line_items
              (match Py.lookup (KStr "LineItemGroups") d with
               | Some v => v
               | None => PList []
               end) = Ok items) as [items ->].
  { destruct (Py.lookup (KStr "LineItemGroups") d) as [[| | | |groups|]|];
      try discriminate; [by apply parse_line_items_total | by exists []]. }
  simpl. eauto.
Qed.

Lemma X7_wellformed_document_normalizes_witness :
  exists summary items,
    normalize (documents [full_document]) = IO [] (Ok (PList [full_document], summary, items)).
Proof.
  apply (X7_wellformed_document_normalizes (documents [full_document]) full_document []);
    reflexivity.
Defined.

(** The two ways of reading a label agree on a dict: same exception, same
    truthy label, or both falsy. *)
Lemma label_agree (d : dict) :
  match summary_ftype (PDict d), line_field_label (PDict d) with
  | Ok a, Ok b => if Py.truthy a then a = b else Py.truthy b = false
  | Raise e1, Raise e2 => e1 = e2
  | _, _ => False
  end.
Proof.
  unfold summary_ftype, line_field_label, Py.contains, Py.getitem, Py.get, Py.dget.
  destruct (Py.lookup (KStr "Type") d) as [ty|]; simpl;
    [ destruct ty as [| | | | |d0]; simpl; try done;
      destruct (Py.lookup (KStr "Text") d0) as [t|]; simpl;
      [ destruct (Py.truthy t) eqn:Ht; simpl; rewrite ?Ht; try done | ] | ];
    (destruct (Py.lookup (KStr "LabelDetection") d) as [ld|]; simpl;
     [ destruct ld as [| | | | |d1]; simpl; try done;
       destruct (Py.lookup (KStr "Text") d1) as [t1|]; simpl;
       [ destruct (Py.truthy t1) eqn:Ht1; simpl; rewrite ?Ht1; try done | ] | ]);
    done.
Qed.

(** X8: the loop over the summary fields and the loop over the fields of a
    line item resolve label and value alike, although written differently:
    on a field that is a dict, one turn of either loop does the same to the
    same mapping, exception included. *)
Theorem X8_summary_and_line_fields_agree (d : dict) (out : dict) :
  summary_step out (PDict d) = raw_step out (PDict d).
Proof.
  unfold summary_step, raw_step. pose proof (label_agree d) as H.
  destruct (summary_ftype (PDict d)) as [a|e1], (line_field_label (PDict d)) as [b|e2];
    simpl; try done; [|by subst].
  destruct (value_text (PDict d)); simpl; [|done].
  destruct (Py.truthy a) eqn:Ha; [subst b; by rewrite Ha | by rewrite H].
Qed.

(** A falsy argument is read as no fields and no groups. *)
Lemma parse_falsy (v : pyval) :
  Py.truthy v = false ->
  _parse_summary_fields v = Ok [] /\ _parse_line_items v = Ok [].
Proof.
  intros H. unfold _parse_summary_fields, _parse_line_items, Py.or_.
  by rewrite H.
Qed.

(** X9: a first document whose "SummaryFields" and "LineItemGroups" members
    are missing, null or empty is normalized to the empty summary and the
    empty list of items; nothing is raised and, the document being there,
    nothing is logged. *)
Theorem X9_document_without_fields tx d rest :
  Py.get tx "ExpenseDocuments" (PList []) = Ok (PList (PDict d :: rest)) ->
  Py.truthy (Py.dget d "SummaryFields" (PList [])) = false ->
  Py.truthy (Py.dget d "LineItemGroups" (PList [])) = false ->
  normalize tx = IO [] (Ok (PList (PDict d :: rest), [], [])).
Proof.
  intros Hdocs Hsf Hgroups. unfold normalize, iobind, lift; simpl.
  rewrite Hdocs; simpl.
  destruct (parse_falsy _ Hsf) as [-> _]. simpl.
  destruct (parse_falsy _ Hgroups) as [_ ->]. reflexivity.
Qed.

Lemma X9_document_without_fields_witness :
  normalize (documents [PDict [(KStr "SummaryFields", PNone)]])
  = IO [] (Ok (PList [PDict [(KStr "SummaryFields", PNone)]], [], [])).
Proof.
  apply (X9_document_without_fields _ [(KStr "SummaryFields", PNone)] []); reflexivity.
Defined.

(** ** The loops over groups and line items *)

Lemma parse_line_items_list gs : _parse_line_items (PList gs) = for_each group_step gs [].
Proof. by destruct gs. Qed.

Lemma line_item_step_eq acc li :
  line_item_step acc li = (raw <- raw_item li ;; Ok (acc ++ [normalized raw])).
Proof. reflexivity. Qed.

(** What a loop appends does not depend on what was collected before. *)
Lemma line_loop_shift lis acc :
  for_each line_item_step lis acc
  = (its <- for_each line_item_step lis [] ;; Ok (acc ++ its)).
Proof.
  revert acc. induction lis as [|li lis IH]; intros acc; simpl.
  - by rewrite app_nil_r.
  - rewrite !line_item_step_eq.
    destruct (raw_item li) as [raw|e]; simpl; [|done].
    rewrite (IH (acc ++ [normalized raw])), (IH [normalized raw]).
    destruct (for_each line_item_step lis []); simpl; [|done].
    by rewrite <- app_assoc.
Qed.

Lemma group_step_eq acc g :
  group_step acc g = (lis <- line_items_of g ;; for_each line_item_step lis acc).
Proof. reflexivity. Qed.

Lemma group_step_shift acc g :
  group_step acc g = (its <- group_step [] g ;; Ok (acc ++ its)).
Proof.
  rewrite !group_step_eq.
  destruct (line_items_of g) as [lis|e]; simpl; [|done].
  apply line_loop_shift.
Qed.

Lemma group_loop_shift gs acc :
  for_each group_step gs acc
  = (its <- for_each group_step gs [] ;; Ok (acc ++ its)).
Proof.
  revert acc. induction gs as [|g gs IH]; intros acc; simpl.
  - by rewrite app_nil_r.
  - rewrite (group_step_shift acc g).
    destruct (group_step [] g) as [i1|e]; simpl; [|done].
    rewrite (IH (acc ++ i1)), (IH i1).
    destruct (for_each group_step gs []); simpl; [|done].
    by rewrite <- app_assoc.
Qed.

(** X10: parsing a list of groups is parsing its parts and appending the
    results; an exception in either part is the exception of the whole, so
    the error of a group does not depend on the groups before it. *)
Theorem X10_line_items_of_appended_groups (gs1 gs2 : list pyval) :
  _parse_line_items (PList (gs1 ++ gs2))
  = (items1 <- _parse_line_items (PList gs1) ;;
     items2 <- _parse_line_items (PList gs2) ;;
     Ok (items1 ++ items2)).
Proof.
  rewrite !parse_line_items_list, for_each_app.
  destruct (for_each group_step gs1 []); simpl; [|done].
  apply group_loop_shift.
Qed.

(** X11: unlike a null list of groups, a group whose "LineItems" member is
    there but null makes the parse raise [TypeError], and the items of the
    groups before it are lost with it. *)
Theorem X11_null_line_items_abort (gs1 gs2 : list pyval) (g : pyval) (items1 : list dict) :
  _parse_line_items (PList gs1) = Ok items1 ->
  Py.get g "LineItems" (PList []) = Ok PNone ->
  _parse_line_items (PList (gs1 ++ g :: gs2)) = Raise TypeError.
Proof.
  rewrite !parse_line_items_list, for_each_app. intros -> Hg. simpl.
  rewrite group_step_shift, group_step_eq. unfold line_items_of. by rewrite Hg.
Qed.

Lemma X11_null_line_items_abort_witness :
  _parse_line_items (PList (sample_groups ++ [PDict [(KStr "LineItems", PNone)]]))
  = Raise TypeError.
Proof.
  eapply (X11_null_line_items_abort sample_groups [] (PDict [(KStr "LineItems", PNone)]));
    reflexivity.
Defined.

Lemma line_loop_rows lis its :
  for_each line_item_step lis [] = Ok its ->
  exists raws, Forall2 (fun li raw => raw_item li = Ok raw) lis raws /\
               its = map normalized raws.
Proof.
  revert its. induction lis as [|li lis IH]; intros its; simpl.
  - intros [= <-]. exists []. split; [constructor | done].
  - rewrite line_item_step_eq.
    destruct (raw_item li) as [raw|e] eqn:Eraw; simpl; [|discriminate].
    rewrite line_loop_shift.
    destruct (for_each line_item_step lis []) as [rest|] eqn:Erest; simpl; [|discriminate].
    intros [= <-]. destruct (IH rest eq_refl) as (raws & Hraws & ->).
    exists (raw :: raws). split; [by constructor | done].
Qed.

Lemma group_loop_rows gs items :
  for_each group_step gs [] = Ok items ->
  exists liss raws,
    Forall2 (fun g lis => line_items_of g = Ok lis) gs liss /\
    Forall2 (fun li raw => raw_item li = Ok raw) (concat liss) raws /\
    items = map normalized raws.
Proof.
  revert items. induction gs as [|g gs IH]; intros items; simpl.
  - intros [= <-]. exists [], []. repeat split; constructor.
  - rewrite group_step_eq.
    destruct (line_items_of g) as [lis|e] eqn:Elis; simpl; [|discriminate].
    destruct (for_each line_item_step lis []) as [its|] eqn:Eits; simpl; [|discriminate].
    rewrite group_loop_shift.
    destruct (for_each group_step gs []) as [rest|] eqn:Erest; simpl; [|discriminate].
    intros [= <-].
    destruct (line_loop_rows lis its Eits) as (raws1 & Hraws1 & ->).
    destruct (IH rest eq_refl) as (liss & raws2 & Hliss & Hraws2 & ->).
    exists (lis :: liss), (raws1 ++ raws2). simpl. split; [by constructor|].
    split; [by apply Forall2_app | by rewrite map_app].
Qed.

(** X12: the output has one item per line item, in the order the line items
    come across the groups and within each group: it is the list of the
    normalized raw mappings of the line items of the first group, then of
    the second, and so on. *)
Theorem X12_line_items_in_order (groups : pyval) (gs : list pyval) (items : list dict) :
  Py.iter (Py.or_ groups (PList [])) = Ok gs ->
  _parse_line_items groups = Ok items ->
  exists liss raws,
    Forall2 (fun g lis => line_items_of g = Ok lis) gs liss /\
    Forall2 (fun li raw => raw_item li = Ok raw) (concat liss) raws /\
    items = map normalized raws.
Proof.
  unfold _parse_line_items. intros -> H. by apply group_loop_rows.
Qed.

Lemma X12_line_items_in_order_witness :
  exists liss raws,
    Forall2 (fun g lis => line_items_of g = Ok lis) sample_groups liss /\
    Forall2 (fun li raw => raw_item li = Ok raw) (concat liss) raws /\
    [ normalized [ (KStr "ITEM", PStr "Coffee"); (KStr "PRICE", PStr "3.50") ];
      normalized [ (KStr "ITEM", PStr "Gratuity"); (KStr "TOTAL", PStr "1.00") ] ]
    = map normalized raws.
Proof.
  apply (X12_line_items_in_order (PList sample_groups)); reflexivity.
Defined.

(** ** Loops that fill a dict *)

Lemma keys_set_add k v d : map fst (Py.set k v d) = add_key (map fst d) k.
Proof.
  rewrite keys_set. unfold add_key.
  destruct (Py.lookup k d) eqn:E, (in_dec pykey_eq_dec k (map fst d)) as [Hin|Hin]; try done.
  - exfalso. assert (Py.lookup k d <> None) as Hne by congruence.
    apply Hne. by apply lookup_None_keys.
  - by apply lookup_None_keys in E.
Qed.

Lemma In_add_key k k' ks : In k (add_key ks k') <-> In k ks \/ k = k'.
Proof.
  unfold add_key. destruct (in_dec pykey_eq_dec k' ks) as [Hin|Hin].
  - split; [auto | intros [H| ->]; auto].
  - rewrite in_app_iff. simpl. intuition.
Qed.

Lemma In_fold_add_key k l acc :
  In k (fold_left add_key l acc) <-> In k acc \/ In k l.
Proof.
  revert acc. induction l as [|k' l IH]; intros acc; simpl; [tauto|].
  rewrite IH, In_add_key. intuition.
Qed.

Lemma NoDup_add_key ks k : List.NoDup ks -> List.NoDup (add_key ks k).
Proof.
  intros H. unfold add_key. destruct (in_dec pykey_eq_dec k ks) as [Hin|Hin]; [done|].
  apply NoDup_ListNoDup, NoDup_app. apply NoDup_ListNoDup in H.
  split; [done|]. split; [|apply NoDup_singleton].
  intros x Hx Hk. apply list_elem_of_In in Hx. apply list_elem_of_In in Hk.
  simpl in Hk. destruct Hk as [<-|[]]. done.
Qed.

Section KeyedLoop.

(** A loop whose turn stores the value of a field under the key of the
    field, or skips the field. *)
Variable step : dict -> pyval -> result dict.
Variable key : pyval -> option pykey.
Hypothesis step_inv : forall out field out',
  step out field = Ok out' ->
  match key field with
  | Some k => exists v, value_text field = Ok v /\ out' = Py.set k v out
  | None => out' = out
  end.

Lemma loop_keys fields out out' :
  for_each step fields out = Ok out' ->
  map fst out' = fold_left add_key (omap key fields) (map fst out).
Proof.
  revert out. induction fields as [|f fields IH]; intros out; simpl.
  - by intros [= <-].
  - destruct (step out f) as [mid|] eqn:E; simpl; [|discriminate].
    intros H. rewrite (IH mid H). apply step_inv in E.
    destruct (key f) as [k|]; simpl.
    + destruct E as (v & _ & ->). by rewrite keys_set_add.
    + by subst.
Qed.

Lemma loop_keeps k fields out out' :
  Forall (fun g => key g <> Some k) fields ->
  for_each step fields out = Ok out' ->
  Py.lookup k out' = Py.lookup k out.
Proof.
  intros Hk.
  apply (for_each_invariant (fun s => Py.lookup k s = Py.lookup k out)
           (fun g => key g <> Some k)); [|done|done].
  intros s x s' Hx Hs Hstep. apply step_inv in Hstep.
  destruct (key x) as [k'|].
  - destruct Hstep as (v & _ & ->). rewrite lookup_set_ne; [done|congruence].
  - by subst.
Qed.

Lemma loop_last fields out before field after k v :
  for_each step fields [] = Ok out ->
  fields = before ++ field :: after ->
  key field = Some k ->
  value_text field = Ok v ->
  Forall (fun g => key g <> Some k) after ->
  Py.lookup k out = Some v.
Proof.
  intros Hloop -> Hkey Hval Hafter.
  rewrite for_each_app in Hloop.
  apply rbind_Ok in Hloop as (mid & _ & Hloop). simpl in Hloop.
  apply rbind_Ok in Hloop as (mid' & Hstep & Hloop).
  apply step_inv in Hstep. rewrite Hkey in Hstep.
  destruct Hstep as (v' & Hv' & ->).
  rewrite (loop_keeps k after _ out Hafter Hloop), lookup_set_eq. congruence.
Qed.

End KeyedLoop.

Lemma raw_step_inv out field out' :
  raw_step out field = Ok out' ->
  match line_entry_key field with
  | Some k => exists v, value_text field = Ok v /\ out' = Py.set k v out
  | None => out' = out
  end.
Proof.
  unfold raw_step, line_entry_key.
  destruct (line_field_label field) as [t|]; simpl; [|discriminate].
  destruct (value_text field) as [v|]; simpl; [|discriminate].
  destruct (Py.truthy t); [|by intros [= <-]].
  destruct (Py.hash t) as [k|]; simpl; [|discriminate].
  intros [= <-]. eauto.
Qed.

Lemma In_omap {A B} (f : A -> option B) (l : list A) (y : B) :
  In y (omap f l) <-> exists x, In x l /\ f x = Some y.
Proof.
  rewrite <- list_elem_of_In, list_elem_of_omap.
  split; intros (x & Hx & Hf); exists x; by rewrite ?list_elem_of_In in *.
Qed.

(** X13: the keys of the summary are the labels of the fields, each once, in
    the order in which the labels first occur: no key is invented and no
    labelled field is lost. *)
Theorem X13_summary_keys (summary_fields : pyval) (fields : list pyval) (summary : dict) :
  Py.iter (Py.or_ summary_fields (PList [])) = Ok fields ->
  _parse_summary_fields summary_fields = Ok summary ->
  map fst summary = first_occurrences (omap entry_key fields) /\
  (forall k, In k (map fst summary) <-> exists f, In f fields /\ entry_key f = Some k).
Proof.
  unfold _parse_summary_fields. intros -> Hloop. simpl in Hloop.
  pose proof (loop_keys summary_step entry_key summary_step_inv _ _ _ Hloop) as Hkeys.
  split; [exact Hkeys|].
  intros k. rewrite Hkeys, In_fold_add_key, In_omap. simpl. tauto.
Qed.

Lemma X13_summary_keys_witness :
  exists summary,
    _parse_summary_fields (PList two_totals) = Ok summary /\
    map fst summary = [KStr "TOTAL"; KStr "VENDOR_NAME"; KStr "INVOICE_DATE"].
Proof.
  eexists. split; [reflexivity|].
  apply (X13_summary_keys (PList two_totals) two_totals); reflexivity.
Defined.

(** X14: the raw mapping of a line item has each label once, and a label
    that several fields of the item carry keeps the value of the last of
    them. *)
Theorem X14_raw_mapping_last_wins (li : pyval) (raw : dict) :
  raw_item li = Ok raw ->
  List.NoDup (map fst raw) /\
  forall fields before field after k v,
    fields_of li = Ok fields ->
    fields = before ++ field :: after ->
    line_entry_key field = Some k ->
    value_text field = Ok v ->
    Forall (fun g => line_entry_key g <> Some k) after ->
    Py.lookup k raw = Some v.
Proof.
  unfold raw_item, fields_of. intros H.
  destruct (Py.get li "LineItemExpenseFields" (PList [])) as [fv|]; simpl in *; [|discriminate].
  destruct (Py.iter fv) as [fs|]; simpl in *; [|discriminate].
  split.
  - rewrite (loop_keys raw_step line_entry_key raw_step_inv _ _ _ H). simpl.
    generalize (omap line_entry_key fs). intros ks.
    assert (forall acc, List.NoDup acc -> List.NoDup (fold_left add_key ks acc)) as Hnd.
    { induction ks as [|k ks IH]; intros acc Hacc; simpl; [done|].
      by apply IH, NoDup_add_key. }
    apply Hnd. constructor.
  - intros fields before field after k v [= <-] Hsplit Hkey Hval Hafter.
    by apply (loop_last raw_step line_entry_key raw_step_inv fs raw before field after k v).
Qed.

Lemma X14_raw_mapping_last_wins_witness :
  exists raw,
    raw_item tip_line_item = Ok raw /\
    List.NoDup (map fst raw) /\
    Py.lookup (KStr "ITEM") raw = Some (PStr "Gratuity").
Proof.
  eexists. split; [reflexivity|].
  destruct (X14_raw_mapping_last_wins tip_line_item
              [ (KStr "ITEM", PStr "Gratuity"); (KStr "TOTAL", PStr "1.00") ] eq_refl)
    as [Hnodup Hlast].
  split; [exact Hnodup|].
  apply (Hlast tip_fields
           [ item_field "ITEM" (Some "Tip"); item_field "TOTAL" (Some "1.00") ]
           (item_field "ITEM" (Some "Gratuity")) []
           (KStr "ITEM") (PStr "Gratuity")); try reflexivity.
  constructor.
Defined.

(** X15: every item that [_parse_line_items] returns has exactly the keys
    description, quantity, unit_price, total and _raw, in this order, so the
    renderers always find the four attributes they look up. *)
Theorem X15_items_have_five_keys (groups : pyval) (items : list dict) :
  _parse_line_items groups = Ok items ->
  Forall (fun it => map fst it = item_keys) items.
Proof.
  intros H. apply parse_line_items_origin in H.
  eapply Forall_impl; [exact H|].
  by intros it (li & raw & _ & _ & ->).
Qed.

Lemma X15_items_have_five_keys_witness :
  exists items,
    _parse_line_items (PList sample_groups) = Ok items /\
    length items = 2 /\
    Forall (fun it => map fst it = item_keys) items.
Proof.
  eexists. split; [reflexivity|]. split; [reflexivity|].
  by apply (X15_items_have_five_keys (PList sample_groups)).
Defined.

(** ** The handler as a whole *)

Lemma normalize_Ok_inv tx docs summary items :
  outcome (normalize tx) = Ok (docs, summary, items) ->
  Py.get tx "ExpenseDocuments" (PList []) = Ok docs.
Proof.
  unfold normalize, iobind, lift; simpl.
  destruct (Py.get tx "ExpenseDocuments" (PList [])) as [d|]; simpl; [|discriminate].
  destruct (Py.truthy d); simpl; [|by intros [= <- _ _]].
  destruct (Py.getitem0 d) as [doc|]; simpl; [|discriminate].
  destruct (Py.get doc "SummaryFields" (PList [])) as [sf|]; simpl; [|discriminate].
  destruct (_parse_summary_fields sf); simpl; [|discriminate].
  destruct (Py.get doc "LineItemGroups" (PList [])) as [groups|]; simpl; [|discriminate].
  destruct (_parse_line_items groups); simpl; [|discriminate].
  by intros [= <- _ _].
Qed.

(** What a successful first half went through. *)
Lemma prepare_Ok_inv w event p :
  outcome (prepare w event) = Ok p ->
  exists tx docs,
    adapt_trigger event = Ok (p_bucket p, p_key p) /\
    analyze_expense w (p_bucket p) (p_key p) = Ok tx /\
    Py.get tx "ExpenseDocuments" (PList []) = Ok docs /\
    outcome (normalize tx) = Ok (docs, p_summary p, p_items p) /\
    Py.len docs = Ok (p_doc_count p).
Proof.
  unfold prepare, iobind, lift, try_except, call_analyze_expense; simpl.
  destruct (adapt_trigger event) as [[bucket key]|]; simpl; [|discriminate].
  destruct (analyze_expense w bucket key) as [tx|e] eqn:Etx; simpl;
    [|destruct (is_ClientError e); discriminate].
  destruct (normalize tx) as [tn [[[docs summary] items]|]] eqn:En; simpl; [|discriminate].
  destruct (Py.len docs) as [n|] eqn:Elen; simpl; [|discriminate].
  intros [= <-]. simpl. exists tx, docs.
  assert (outcome (normalize tx) = Ok (docs, summary, items)) as Hn by (by rewrite En).
  repeat split; try done. by apply normalize_Ok_inv in Hn.
Qed.

Lemma normalize_calls tx : service_calls (trace (normalize tx)) = [].
Proof.
  unfold normalize, iobind, lift; simpl.
  destruct (Py.get tx "ExpenseDocuments" (PList [])) as [docs|]; simpl; [|done].
  destruct (Py.truthy docs); simpl; [|done].
  destruct (Py.getitem0 docs) as [doc|]; simpl; [|done].
  destruct (Py.get doc "SummaryFields" (PList [])) as [sf|]; simpl; [|done].
  destruct (_parse_summary_fields sf); simpl; [|done].
  destruct (Py.get doc "LineItemGroups" (PList [])) as [groups|]; simpl; [|done].
  by destruct (_parse_line_items groups).
Qed.

Lemma service_calls_app t1 t2 :
  service_calls (t1 ++ t2) = service_calls t1 ++ service_calls t2.
Proof. apply filter_app. Qed.

Lemma service_calls_log lvl msg args t :
  service_calls (ELog lvl msg args :: t) = service_calls t.
Proof. reflexivity. Qed.

Lemma service_calls_analyze bucket key t :
  service_calls (EAnalyzeExpense bucket key :: t)
  = EAnalyzeExpense bucket key :: service_calls t.
Proof. reflexivity. Qed.

Lemma prepare_trace_shape w event :
  exists logs,
    service_calls logs = [] /\
    trace (prepare w event) =
    ELog INFO "Received event: %s" [event] ::
    match adapt_trigger event with
    | Ok bk => EAnalyzeExpense (fst bk) (snd bk) :: logs
    | Raise _ => []
    end.
Proof.
  unfold prepare, iobind, lift, try_except, call_analyze_expense; simpl.
  destruct (adapt_trigger event) as [[bucket key]|]; simpl; [|by exists []].
  destruct (analyze_expense w bucket key) as [tx|e]; simpl.
  - pose proof (normalize_calls tx) as Hn.
    destruct (normalize tx) as [tn [n|]]; simpl.
    + eexists. split; [|reflexivity].
      rewrite service_calls_app. simpl in Hn. rewrite Hn.
      by destruct (Py.len n.1.1).
    + exists tn. by split.
  - destruct (is_ClientError e); simpl; eexists; (split; [|reflexivity]); done.
Qed.

Lemma prepare_calls w event :
  service_calls (trace (prepare w event)) =
  match adapt_trigger event with
  | Ok bk => [EAnalyzeExpense (fst bk) (snd bk)]
  | Raise _ => []
  end.
Proof.
  destruct (prepare_trace_shape w event) as (logs & Hlogs & ->).
  rewrite service_calls_log.
  destruct (adapt_trigger event); [|done].
  by rewrite service_calls_analyze, Hlogs.
Qed.

(** X16: the success output is only returned after the record was written
    and the mail was attempted: the write succeeded, the send succeeded or
    raised a [ClientError], and the output reports the receipt id, the
    summary and the number of items of that very record. *)
Theorem X16_success_means_persisted py_repr w event out :
  outcome (handler py_repr w event) = Ok out ->
  exists bucket key summary items doc_count,
    let record :=
      build_record (uuid4 w) bucket key (now_iso_of w) summary items doc_count in
    let message :=
      build_email py_repr w summary items (uuid4 w) bucket key (now_iso_of w) in
    adapt_trigger event = Ok (bucket, key) /\
    In (EPutItem record) (trace (handler py_repr w event)) /\
    put_item w record = Ok tt /\
    In (ESendEmail message) (trace (handler py_repr w event)) /\
    (send_email w message = Ok tt \/
     exists code, send_email w message = Raise (ClientError code)) /\
    out = success (uuid4 w) summary items.
Proof.
  rewrite handler_split. unfold iobind.
  destruct (prepare w event) as [tp [p|e]] eqn:Ep; simpl; [|discriminate].
  assert (outcome (prepare w event) = Ok p) as Hp by (by rewrite Ep).
  destruct (prepare_Ok_inv _ _ _ Hp) as (tx & docs & Hadapt & _).
  rewrite finish_cases. cbv zeta. intros Hout.
  exists (p_bucket p), (p_key p), (p_summary p), (p_items p), (p_doc_count p).
  cbv zeta. split; [exact Hadapt|].
  change (build_record _ _ _ _ _ _ _) with (record_of w p).
  change (build_email _ _ _ _ _ _ _ _) with (email_of py_repr w p).
  generalize dependent (record_of w p). generalize dependent (email_of py_repr w p).
  intros message record Hout.
  destruct (put_item w record) as [[]|]; [|discriminate].
  destruct (send_email w message) as [[]|e] eqn:Esend.
  - injection Hout as <-. repeat split; auto; apply in_or_app; right; simpl; auto.
  - destruct e; simpl in Hout; try discriminate.
    injection Hout as <-. repeat split; eauto; apply in_or_app; right; simpl; auto.
Qed.

Lemma X16_success_means_persisted_witness :
  let w := sample_world (documents [full_document]) (Ok tt) (Ok tt) in
  exists bucket key summary items doc_count,
    let record :=
      build_record (uuid4 w) bucket key (now_iso_of w) summary items doc_count in
    let message :=
      build_email no_repr w summary items (uuid4 w) bucket key (now_iso_of w) in
    adapt_trigger (s3_event "b" "k") = Ok (bucket, key) /\
    In (EPutItem record) (trace (handler no_repr w (s3_event "b" "k"))) /\
    put_item w record = Ok tt /\
    In (ESendEmail message) (trace (handler no_repr w (s3_event "b" "k"))) /\
    (send_email w message = Ok tt \/
     exists code, send_email w message = Raise (ClientError code)) /\
    success (uuid4 w) [ (KStr "VENDOR_NAME", PStr "ACME"); (KStr "TOTAL", PStr "4.50") ]
      [ normalized [ (KStr "ITEM", PStr "Coffee"); (KStr "PRICE", PStr "3.50") ];
        normalized [ (KStr "ITEM", PStr "Gratuity"); (KStr "TOTAL", PStr "1.00") ] ]
    = success (uuid4 w) summary items.
Proof.
  intros w.
  apply (X16_success_means_persisted no_repr w (s3_event "b" "k")).
  reflexivity.
Defined.

(** X17: an invocation calls each service at most once and always in the
    order Textract, DynamoDB, SES: the calls in its trace are an initial part
    of one such sequence. *)
Theorem X17_service_calls_in_order py_repr w event :
  exists bucket key record message rest,
    [EAnalyzeExpense bucket key; EPutItem record; ESendEmail message]
    = service_calls (trace (handler py_repr w event)) ++ rest.
Proof.
  rewrite handler_split. unfold iobind.
  pose proof (prepare_calls w event) as Hcalls.
  destruct (prepare w event) as [tp [p|e]] eqn:Ep; simpl in *.
  - assert (outcome (prepare w event) = Ok p) as Hp by (by rewrite Ep).
    destruct (prepare_Ok_inv _ _ _ Hp) as (tx & docs & Hadapt & _).
    rewrite Hadapt in Hcalls. simpl in Hcalls.
    rewrite service_calls_app, Hcalls, finish_cases. cbv zeta.
    exists (p_bucket p), (p_key p), (record_of w p), (email_of py_repr w p).
    destruct (put_item w (record_of w p)); simpl; [|by eexists].
    destruct (send_email w _) as [|e]; [|destruct (is_ClientError e)]; by exists [].
  - rewrite Hcalls.
    destruct (adapt_trigger event) as [[bucket key]|].
    + exists bucket, key, PNone, (Email "" [] "" "" ""). by eexists.
    + exists PNone, PNone, PNone, (Email "" [] "" "" ""). by eexists.
Qed.

(** X18: a failed invocation failed in one of three ways: before the write,
    with no record written and no mail sent; at the write, whose exception it
    raises; or at the send, which raised an exception that is not a
    [ClientError], after the record was written. *)
Theorem X18_failure_modes py_repr w event e :
  outcome (handler py_repr w event) = Raise e ->
  (Forall quiet (trace (handler py_repr w event))) \/
  (exists before record,
     trace (handler py_repr w event) = before ++ [EPutItem record] /\
     Forall quiet before /\ put_item w record = Raise e) \/
  (exists before record message,
     trace (handler py_repr w event) = before ++ [EPutItem record; ESendEmail message] /\
     Forall quiet before /\ put_item w record = Ok tt /\
     send_email w message = Raise e /\ is_ClientError e = false).
Proof.
  rewrite handler_split. unfold iobind.
  pose proof (prepare_quiet w event) as Hq.
  destruct (prepare w event) as [tp [p|e0]]; simpl in *; [|intros _; by left].
  rewrite finish_cases. cbv zeta. intros Hout. right.
  destruct (put_item w (record_of w p)) as [[]|e1] eqn:Eput; simpl in *.
  - right. exists tp, (record_of w p), (email_of py_repr w p).
    destruct (send_email w (email_of py_repr w p)) as [|e2] eqn:Esend; [discriminate|].
    destruct (is_ClientError e2) eqn:Ec; [discriminate|].
    simpl in Hout. injection Hout as ->. done.
  - left. exists tp, (record_of w p). injection Hout as ->. done.
Qed.

Lemma X18_failure_modes_witness :
  let w := sample_world one_document (Raise (OtherError "EndpointConnectionError")) (Ok tt) in
  let h := handler no_repr w (manual_event "b" "k") in
  (Forall quiet (trace h)) \/
  (exists before record,
     trace h = before ++ [EPutItem record] /\
     Forall quiet before /\ put_item w record = Raise (OtherError "EndpointConnectionError")) \/
  (exists before record message,
     trace h = before ++ [EPutItem record; ESendEmail message] /\
     Forall quiet before /\ put_item w record = Ok tt /\
     send_email w message = Raise (OtherError "EndpointConnectionError") /\
     is_ClientError (OtherError "EndpointConnectionError") = false).
Proof.
  intros w h.
  apply (X18_failure_modes no_repr w (manual_event "b" "k")). reflexivity.
Defined.



(** X20: the vendor, date and total of the report are never [None] and never
    invented: each is its literal fallback or a value, other than [None],
    that the summary holds under one of its three candidate keys. *)
Theorem X20_resolved_value_origin (summary : dict) (k1 k2 k3 fallback : string) :
  resolve summary k1 k2 k3 fallback <> PNone /\
  (resolve summary k1 k2 k3 fallback = PStr fallback \/
   exists k, In k [k1; k2; k3] /\
             Py.lookup (KStr k) summary = Some (resolve summary k1 k2 k3 fallback)).
Proof.
  unfold resolve, Py.or_, Py.dget.
  destruct (Py.lookup (KStr k1) summary) as [v1|] eqn:E1; simpl.
  - destruct (Py.truthy v1) eqn:T1; simpl.
    + rewrite T1. destruct v1; try discriminate; (split; [discriminate|]);
        right; exists k1; simpl; auto.
    + destruct (Py.lookup (KStr k2) summary) as [v2|] eqn:E2; simpl.
      * destruct (Py.truthy v2) eqn:T2; simpl.
        -- destruct v2; try discriminate; (split; [discriminate|]);
             right; exists k2; simpl; auto.
        -- destruct (Py.lookup (KStr k3) summary) as [v3|] eqn:E3; simpl.
           ++ destruct v3; simpl; (split; [discriminate|]); auto;
                right; exists k3; simpl; auto.
           ++ split; [discriminate | by left].
      * destruct (Py.lookup (KStr k3) summary) as [v3|] eqn:E3; simpl.
        -- destruct v3; simpl; (split; [discriminate|]); auto;
             right; exists k3; simpl; auto.
        -- split; [discriminate | by left].
  - destruct (Py.lookup (KStr k2) summary) as [v2|] eqn:E2; simpl.
    + destruct (Py.truthy v2) eqn:T2; simpl.
      * destruct v2; try discriminate; (split; [discriminate|]);
          right; exists k2; simpl; auto.
      * destruct (Py.lookup (KStr k3) summary) as [v3|] eqn:E3; simpl.
        -- destruct v3; simpl; (split; [discriminate|]); auto;
             right; exists k3; simpl; auto.
        -- split; [discriminate | by left].
    + destruct (Py.lookup (KStr k3) summary) as [v3|] eqn:E3; simpl.
      * destruct v3; simpl; (split; [discriminate|]); auto;
          right; exists k3; simpl; auto.
      * split; [discriminate | by left].
Qed.

(** X21: the record counts every document of the response in "doc_count",
    although only the first one is parsed. *)
Theorem X21_doc_count_counts_all py_repr w event bucket key tx docs record :
  adapt_trigger event = Ok (bucket, key) ->
  analyze_expense w bucket key = Ok tx ->
  Py.get tx "ExpenseDocuments" (PList []) = Ok (PList docs) ->
  In (EPutItem record) (trace (handler py_repr w event)) ->
  exists r,
    record = PDict r /\
    Py.lookup (KStr "textract_meta") r =
      Some (PDict [ (KStr "api", PStr "AnalyzeExpense");
                    (KStr "doc_count", PInt (Z.of_nat (length docs))) ]).
Proof.
  intros Hadapt Htx Hdocs Hin.
  destruct (handler_put_inv _ _ _ _ Hin) as (p & Hp & -> & _).
  destruct (prepare_Ok_inv _ _ _ Hp) as (tx' & docs' & Hadapt' & Htx' & Hdocs' & _ & Hlen).
  rewrite Hadapt in Hadapt'. injection Hadapt' as Hb Hk.
  rewrite <- Hb, <- Hk, Htx in Htx'. injection Htx' as <-.
  rewrite Hdocs in Hdocs'. injection Hdocs' as <-.
  simpl in Hlen. injection Hlen as Hlen.
  eexists. split; [reflexivity|]. simpl. by rewrite Hlen.
Qed.

Lemma X21_doc_count_counts_all_witness :
  let w := sample_world (documents [full_document; full_document; PNone]) (Ok tt) (Ok tt) in
  exists record r,
    In (EPutItem record) (trace (handler no_repr w (manual_event "b" "k"))) /\
    record = PDict r /\
    Py.lookup (KStr "textract_meta") r =
      Some (PDict [ (KStr "api", PStr "AnalyzeExpense"); (KStr "doc_count", PInt 3) ]).
Proof.
  intros w.
  assert (exists record,
            In (EPutItem record) (trace (handler no_repr w (manual_event "b" "k"))))
    as [record Hin].
  { eexists. simpl. right. right. left. reflexivity. }
  exists record.
  destruct (X21_doc_count_counts_all no_repr w (manual_event "b" "k") (PStr "b") (PStr "k")
              (documents [full_document; full_document; PNone])
              [full_document; full_document; PNone] record
              eq_refl eq_refl eq_refl Hin) as (r & Hr & Hmeta).
  exists r. repeat split; assumption.
Defined.
